(** * Dashboard scripts: a shallow embedding and its properties

    Three Streamlit scripts are modelled here:
    - [VSOP-LIVEVIEW/streamlit_app.py]  (module [LiveView]),
    - [weather_dashboard.py]            (module [WeatherDashboard]),
    - [app.py]                          (module [NewsApp]).

    A script run is a computation that emits UI elements in order and ends
    by running to its last line, by [st.stop()], or by an uncaught
    exception.  The Python and pandas values the scripts touch are modelled
    in the modules [Py] and [Pandas]. *)

From Stdlib Require Import ZArith QArith List Bool Lia Permutation Sorted.
From Stdlib Require Import String Ascii.
Import ListNotations.

Local Open Scope Z_scope.

(* ================================================================== *)
(** * Python values *)
(* ================================================================== *)

Module Py.

(** A Python [str] is a sequence of Unicode code points. *)
Definition str := list N.

(** ASCII literals. *)
Definition lit (s : string) : str :=
  List.map N_of_ascii (list_ascii_of_string s).

(** [str.isspace] on one code point: the characters [str.strip()] removes. *)
Definition isspace (c : N) : bool :=
  (((9 <=? c) && (c <=? 13)) || ((28 <=? c) && (c <=? 32))
   || (c =? 133) || (c =? 160) || (c =? 5760)
   || ((8192 <=? c) && (c <=? 8202))
   || (c =? 8232) || (c =? 8233) || (c =? 8239) || (c =? 8287)
   || (c =? 12288))%N.

Fixpoint lstrip (s : str) : str :=
  match s with
  | [] => []
  | c :: s' => if isspace c then lstrip s' else s
  end.

Definition rstrip (s : str) : str := rev (lstrip (rev s)).

(** [s.strip()] *)
Definition strip (s : str) : str := rstrip (lstrip s).

(** A label with no whitespace at either end. *)
Definition trimmed (l : str) : Prop :=
  (forall c r, l = c :: r -> isspace c = false)
  /\ (forall c r, l = r ++ [c] -> isspace c = false).

(** [c in s] for a single character [c]. *)
Definition contains (c : N) (s : str) : bool := existsb (N.eqb c) s.

Fixpoint str_eqb (a b : str) : bool :=
  match a, b with
  | [], [] => true
  | x :: a', y :: b' => (x =? y)%N && str_eqb a' b'
  | _, _ => false
  end.

(** [a <= b] on strings: code point by code point. *)
Fixpoint str_leb (a b : str) : bool :=
  match a, b with
  | [], _ => true
  | _ :: _, [] => false
  | x :: a', y :: b' =>
      if (x <? y)%N then true
      else if (x =? y)%N then str_leb a' b' else false
  end.

Fixpoint digits (u : Decimal.uint) : str :=
  match u with
  | Decimal.Nil => []
  | Decimal.D0 u => 48%N :: digits u
  | Decimal.D1 u => 49%N :: digits u
  | Decimal.D2 u => 50%N :: digits u
  | Decimal.D3 u => 51%N :: digits u
  | Decimal.D4 u => 52%N :: digits u
  | Decimal.D5 u => 53%N :: digits u
  | Decimal.D6 u => 54%N :: digits u
  | Decimal.D7 u => 55%N :: digits u
  | Decimal.D8 u => 56%N :: digits u
  | Decimal.D9 u => 57%N :: digits u
  end.

(** [str(n)] for a Python [int]. *)
Definition str_of_int (n : Z) : str :=
  match Z.to_int n with
  | Decimal.Pos u => digits u
  | Decimal.Neg u => 45%N :: digits u
  end.

(** The exceptions the scripts can meet. *)
Inductive exn :=
| ValueError
| OverflowError
| TypeError
| IndexError
| AttributeError.

(** ** Script runs

    A script emits UI elements of type [E]; a step either yields a value or
    ends the run early. *)

Inductive halt :=
| Stopped               (* st.stop() *)
| Raised (e : exn).     (* uncaught exception *)

Definition M (E A : Type) : Type := (list E * (A + halt))%type.

Definition ret {E A} (a : A) : M E A := ([], inl a).

Definition bind {E A B} (m : M E A) (k : A -> M E B) : M E B :=
  match m with
  | (out, inl a) => let (out', r) := k a in (out ++ out', r)
  | (out, inr h) => (out, inr h)
  end.

Definition emit {E} (e : E) : M E unit := ([e], inl tt).
Definition stop {E A} : M E A := ([], inr Stopped).
Definition raise {E A} (e : exn) : M E A := ([], inr (Raised e)).

(** [for x in xs: body x] *)
Fixpoint for_each {E A} (xs : list A) (body : A -> M E unit) : M E unit :=
  match xs with
  | [] => ret tt
  | x :: xs' => bind (body x) (fun _ => for_each xs' body)
  end.

(** What was shown, and how the run ended ([None]: ran to the last line). *)
Definition shown {E A} (m : M E A) : list E := fst m.
Definition ending {E A} (m : M E A) : option halt :=
  match snd m with inl _ => None | inr h => Some h end.

End Py.

Import Py.

Declare Scope script_scope.
Delimit Scope script_scope with script.
Notation "x <- m ;; k" := (bind m (fun x => k))
  (at level 61, m at next level, right associativity) : script_scope.
Notation "m ;;; k" := (bind m (fun _ => k))
  (at level 61, right associativity) : script_scope.

(* ================================================================== *)
(** * pandas values *)
(* ================================================================== *)

Module Pandas.

(** A cell of a frame read by [pd.read_csv]: a missing value, an integer,
    a finite float (its exact value), an infinite float, or text. *)
Inductive cell :=
| NaN
| Int (z : Z)
| Float (q : Q)
| Inf (negative : bool)
| Str (s : str).

(** What the interpreter and the libraries provide and the scripts only
    call: [int(s)] on text ([None]: it raises [ValueError]), [str(x)] on a
    finite float, and the ordering step of [sort_values] with its default
    [kind='quicksort'], which receives the rows paired with their keys. *)
Class Builtins := {
  int_of_str : str -> option Z;
  repr_float : Q -> str;
  quicksort : list (cell * list cell) -> list (cell * list cell)
}.

(** [pd.notna(c)] *)
Definition notna (c : cell) : bool :=
  match c with NaN => false | _ => true end.

(** Numbers on the extended line. *)
Inductive ext := NegInf | Fin (q : Q) | PosInf.

Definition number (c : cell) : option ext :=
  match c with
  | Int z => Some (Fin (inject_Z z))
  | Float q => Some (Fin q)
  | Inf true => Some NegInf
  | Inf false => Some PosInf
  | NaN | Str _ => None
  end.

Definition ext_leb (a b : ext) : bool :=
  match a, b with
  | NegInf, _ => true
  | _, PosInf => true
  | Fin x, Fin y => Qle_bool x y
  | _, _ => false
  end.

Definition ext_eqb (a b : ext) : bool := ext_leb a b && ext_leb b a.

(** [a == b] on scalars: numbers by value, text by content; a missing
    value equals nothing, and a number never equals text. *)
Definition cell_eqb (a b : cell) : bool :=
  match a, b with
  | Str s, Str t => str_eqb s t
  | _, _ =>
      match number a, number b with
      | Some x, Some y => ext_eqb x y
      | _, _ => false
      end
  end.

(** The ascending order of [sort_values]: numbers by value, text by code
    points, missing values last ([na_position='last']). *)
Definition key_leb (a b : cell) : bool :=
  match a, b with
  | _, NaN => true
  | NaN, _ => false
  | Str s, Str t => str_leb s t
  | Str _, _ => false
  | _, Str _ => true
  | _, _ =>
      match number a, number b with
      | Some x, Some y => ext_leb x y
      | _, _ => true
      end
  end.

Definition is_text (c : cell) : bool :=
  match c with Str _ => true | _ => false end.

Definition is_number (c : cell) : bool :=
  match number c with Some _ => true | None => false end.

(** Keys can be ordered when the present ones are all numbers or all text;
    otherwise comparing them raises [TypeError]. *)
Definition comparable (keys : list cell) : bool :=
  forallb (fun c => negb (is_text c)) keys
  || forallb (fun c => negb (is_number c)) keys.

(** [int(c)] *)
Definition py_int `{Builtins} (c : cell) : Z + exn :=
  match c with
  | Int z => inl z
  | Float q => inl (Z.quot (Qnum q) (Z.pos (Qden q)))
  | Inf _ => inr OverflowError
  | NaN => inr ValueError
  | Str s => match int_of_str s with Some z => inl z | None => inr ValueError end
  end.

(** [str(c)] *)
Definition py_str `{Builtins} (c : cell) : str :=
  match c with
  | NaN => lit "nan"
  | Int z => str_of_int z
  | Float q => repr_float q
  | Inf true => lit "-inf"
  | Inf false => lit "inf"
  | Str s => s
  end.

(** A frame: its column labels and its rows, each row holding one cell per
    column (a short row reads as missing values, as [read_csv] pads it).
    Column labels are taken to be distinct where a column is read. *)
Record DataFrame := {
  columns : list str;
  rows : list (list cell)
}.

(** A row as [iterrows] and [iloc] give it: the labels with the cells. *)
Record Series := {
  index : list str;
  values : list cell
}.

(** [name in df.columns] *)
Definition has_label (name : str) (labels : list str) : bool :=
  existsb (str_eqb name) labels.

Fixpoint position (name : str) (labels : list str) : option nat :=
  match labels with
  | [] => None
  | l :: ls =>
      if str_eqb name l then Some O
      else option_map S (position name ls)
  end.

(** [row[name]] for a label that is present. *)
Definition at_label (labels : list str) (vals : list cell) (name : str) : cell :=
  match position name labels with
  | Some i => nth i vals NaN
  | None => NaN
  end.

(** [s[name]] *)
Definition item (s : Series) (name : str) : cell :=
  at_label (index s) (values s) name.

(** [s.get(name, default)] *)
Definition get (s : Series) (name : str) (default : cell) : cell :=
  if has_label name (index s) then item s name else default.

(** [df[name]] as the list of its cells. *)
Definition column (df : DataFrame) (name : str) : list cell :=
  List.map (fun r => at_label (columns df) r name) (rows df).

(** [df[df[name] == v]] *)
Definition where_eq (df : DataFrame) (name : str) (v : cell) : DataFrame :=
  {| columns := columns df;
     rows := filter (fun r => cell_eqb (at_label (columns df) r name) v) (rows df) |}.

(** [df.iloc[i]] ([None]: it raises [IndexError]) *)
Definition iloc (df : DataFrame) (i : nat) : option Series :=
  option_map (fun r => {| index := columns df; values := r |}) (nth_error (rows df) i).

(** [df.iterrows()].  The cells are handed over as stored; where pandas
    widens the integers of an all-numeric row to floats, [int] and [==]
    answer the same. *)
Definition iterrows (df : DataFrame) : list Series :=
  List.map (fun r => {| index := columns df; values := r |}) (rows df).

(** [df.sort_values(by=name)] *)
Definition sort_values `{Builtins} {E} (df : DataFrame) (name : str) : M E DataFrame :=
  let keys := column df name in
  if comparable keys then
    ret {| columns := columns df;
           rows := List.map snd (quicksort (combine keys (rows df))) |}
  else raise TypeError.

(** What [kind='quicksort'] promises for keys that can be ordered: the
    rows come back rearranged, ascending by key with missing keys last.
    It promises nothing on the order of rows with equal keys. *)
Definition ascending (l : list (cell * list cell)) : Prop :=
  Sorted (fun a b => key_leb (fst a) (fst b) = true) l.

Definition sort_contract (sort : list (cell * list cell) -> list (cell * list cell))
  : Prop :=
  forall l, comparable (List.map fst l) = true ->
            Permutation l (sort l) /\ ascending (sort l).

(** [df.columns = df.columns.str.strip()] *)
Definition strip_columns (df : DataFrame) : DataFrame :=
  {| columns := List.map strip (columns df); rows := rows df |}.

End Pandas.

Import Pandas.

(* ================================================================== *)
(** * JSON answers *)
(* ================================================================== *)

Module Json.

(** What [response.json()] returns.  An object holds the items of the
    parsed dict, whose keys are distinct. *)
#[warnings="-register-all"] Inductive json :=
| JNull
| JBool (b : bool)
| JNum (q : Q)
| JNonFinite            (* NaN, Infinity, -Infinity *)
| JStr (s : str)
| JArr (items : list json)
| JObj (fields : list (str * json)).

(** [bool(v)] *)
Definition truthy (v : json) : bool :=
  match v with
  | JNull => false
  | JBool b => b
  | JNum q => negb (Qeq_bool q 0)
  | JNonFinite => true
  | JStr [] => false
  | JStr (_ :: _) => true
  | JArr [] => false
  | JArr (_ :: _) => true
  | JObj [] => false
  | JObj (_ :: _) => true
  end.

(** [d.get(key)] on the items of a dict. *)
Fixpoint lookup (key : str) (fields : list (str * json)) : option json :=
  match fields with
  | [] => None
  | (k, v) :: rest => if str_eqb key k then Some v else lookup key rest
  end.

(** What [requests.get] gives: it raises, or there is a reply with a status
    code and a body, for which [response.json()] raises when the body is
    not JSON ([None]). *)
Inductive response :=
| Unreachable
| Reply (status_code : Z) (body : option json).

End Json.

Import Json.

(* ================================================================== *)
(** * VSOP-LIVEVIEW/streamlit_app.py *)
(* ================================================================== *)

Module LiveView.

Local Open Scope script_scope.

(** The column labels the script reads, as code points. *)
Definition col_date : str := [26085; 20184]%N.                        (* '日付' *)
Definition col_live_name : str := [12521; 12452; 12502; 21517]%N.     (* 'ライブ名' *)
Definition col_live_id : str := [12521; 12452; 12502; 73; 68]%N.      (* 'ライブID' *)
Definition col_order : str := [26354; 38918]%N.                       (* '曲順' *)
Definition col_video_link : str := [21205; 30011; 12522; 12531; 12463]%N. (* '動画リンク' *)
Definition col_song_name : str := [27005; 26354; 21517]%N.            (* '楽曲名' *)
Definition col_vocal : str := [12508; 12540; 12459; 12523]%N.         (* 'ボーカル' *)
Definition col_starttime : str := lit "STARTTIME".

(** The messages of [st.error], [st.warning] and [st.info]. *)
Inductive message :=
| LoadFailed                              (* line 45 *)
| MissingLiveColumns                      (* line 70 *)
| MissingJoinKey                          (* line 84 *)
| MissingOrder                            (* line 94 *)
| MissingSongColumns (cols : list str)    (* line 124 *)
| SecretsHint.                            (* line 126 *)

(** What the page shows. [StWrite] carries the text of one song line. *)
Inductive element :=
| Title
| SidebarHeader
| Selectbox
| Subheader
| StError (m : message)
| StWarning (m : message)
| StInfo (m : message)
| StWrite (display_text : str).

Section Script.

Context `{Builtins}.

(** [load_data()], lines 24-46.  [source] is what the two [read_csv] calls
    return, [None] when the secrets lookup or a read raises. *)
Definition load_data (source : option (DataFrame * DataFrame))
  : M element (option (DataFrame * DataFrame)) :=
  match source with
  | Some (df_lives, df_songs) =>
      let df_lives := strip_columns df_lives in
      let df_songs := strip_columns df_songs in
      ret (Some (df_lives, df_songs))
  | None =>
      emit (StError LoadFailed) ;;; ret None
  end.

(** The sidebar, lines 55-71.  [choice] is the position in [df_lives] of
    the row that the select box and the look-up of its answer arrive at; no
    row can be chosen from an empty frame, and [iloc[0]] raises.  The
    [display_name] column added on the way is read by nothing else. *)
Definition select_live (df_lives : DataFrame) (choice : nat) : M element Series :=
  emit SidebarHeader ;;;
  if has_label col_date (columns df_lives)
     && has_label col_live_name (columns df_lives) then
    emit Selectbox ;;;
    match iloc df_lives choice with
    | Some selected_live_row => ret selected_live_row
    | None => raise IndexError
    end
  else
    emit (StError MissingLiveColumns) ;;; stop.

(** B) lines 75-85: the songs of the selected live. *)
Definition join (df_lives df_songs : DataFrame) (selected_live_row : Series)
  : M element DataFrame :=
  if has_label col_live_id (columns df_lives)
     && has_label col_live_id (columns df_songs) then
    let live_id := item selected_live_row col_live_id in
    let songs_to_display := where_eq df_songs col_live_id live_id in
    ret songs_to_display
  else
    emit (StWarning MissingJoinKey) ;;; stop.

(** C) lines 91-94: ascending by '曲順'. *)
Definition order_songs (songs_to_display : DataFrame) : M element DataFrame :=
  if has_label col_order (columns songs_to_display) then
    sort_values songs_to_display col_order
  else
    emit (StWarning MissingOrder) ;;; ret songs_to_display.

(** Lines 110-118: the link of one song. *)
Definition youtube_link (video_link_base starttime : cell) : cell + exn :=
  if notna video_link_base && notna starttime then
    match py_int starttime with
    | inl seconds =>
        let connector :=
          if contains 63%N (py_str video_link_base) then lit "&" else lit "?" in
        inl (Str (py_str video_link_base ++ connector ++ lit "t=" ++ str_of_int seconds))
    | inr ValueError => inl video_link_base
    | inr e => inr e
    end
  else inl (Str []).

Definition required_cols : list str := [col_song_name; col_vocal; col_starttime].

(** Lines 104-122: one iteration of the loop. *)
Definition show_song (video_link_base : cell) (song : Series) : M element unit :=
  let song_name := item song col_song_name in
  let vocal := item song col_vocal in
  let starttime := item song col_starttime in
  match youtube_link video_link_base starttime with
  | inl link =>
      let display_text :=
        strip (py_str song_name ++ lit " " ++ py_str vocal ++ lit " " ++ py_str link) in
      emit (StWrite display_text)
  | inr e => raise e
  end.

(** D) lines 96-124. *)
Definition show_songs (selected_live_row : Series) (songs_to_display : DataFrame)
  : M element unit :=
  let video_link_base := get selected_live_row col_video_link (Str []) in
  let missing_cols :=
    filter (fun col => negb (has_label col (columns songs_to_display))) required_cols in
  match missing_cols with
  | [] => for_each (iterrows songs_to_display) (show_song video_link_base)
  | _ => emit (StError (MissingSongColumns missing_cols))
  end.

(** Lines 51-124: the page for two loaded frames. *)
Definition render (df_lives df_songs : DataFrame) (choice : nat) : M element unit :=
  emit Title ;;;
  selected_live_row <- select_live df_lives choice ;;
  songs_to_display <- join df_lives df_songs selected_live_row ;;
  emit Subheader ;;;
  songs_to_display <- order_songs songs_to_display ;;
  show_songs selected_live_row songs_to_display.

(** The script from line 48 on. *)
Definition app (source : option (DataFrame * DataFrame)) (choice : nat)
  : M element unit :=
  loaded <- load_data source ;;
  match loaded with
  | Some (df_lives, df_songs) => render df_lives df_songs choice
  | None => emit (StInfo SecretsHint)
  end.

(** Lines 75-94 alone: the joined and ordered songs. *)
Definition joined_songs (df_lives df_songs : DataFrame) (selected_live_row : Series)
  : M element DataFrame :=
  songs_to_display <- join df_lives df_songs selected_live_row ;;
  order_songs songs_to_display.

End Script.

(** The order key of a song row, and the rows of one live. *)
Definition order_key (df_songs : DataFrame) (r : list cell) : cell :=
  at_label (columns df_songs) r col_order.

Definition songs_of (df_songs : DataFrame) (live_id : cell) : list (list cell) :=
  filter (fun r => cell_eqb (at_label (columns df_songs) r col_live_id) live_id)
         (rows df_songs).

(** The text of the line of one song row, for a link that could be
    derived. *)
Definition song_line `{Builtins} (labels : list str) (video_link_base : cell)
    (r : list cell) : str :=
  let link :=
    match youtube_link video_link_base (at_label labels r col_starttime) with
    | inl l => l
    | inr _ => Str []
    end in
  strip (py_str (at_label labels r col_song_name) ++ lit " "
         ++ py_str (at_label labels r col_vocal) ++ lit " " ++ py_str link).

(** The offset of a row is an infinite float. *)
Definition infinite_offset (labels : list str) (r : list cell) : bool :=
  match at_label labels r col_starttime with Inf _ => true | _ => false end.

Definition is_write (e : element) : bool :=
  match e with StWrite _ => true | _ => false end.

End LiveView.

(* ================================================================== *)
(** * weather_dashboard.py *)
(* ================================================================== *)

Module WeatherDashboard.

Local Open Scope script_scope.

(** A calendar date, as its day number; [(b - a).days] is [b - a]. *)
Definition date := Z.

(** A reading of the forecast API: a number, or [None] for a JSON null,
    which pandas holds as a missing value. *)
Definition reading := option Q.

(** What [get_coordinates] returns for a city that was found. *)
Record Location := {
  name : str;
  lat : Q;
  lon : Q;
  country : str
}.

(** One row of [pd.DataFrame(weather_data["daily"])]. *)
Record daily_row := {
  time : date;
  temperature_2m_max : reading;
  temperature_2m_min : reading;
  windspeed_10m_max : reading
}.

Record WeatherSummary := {
  max_t : reading;
  min_t : reading;
  max_w : reading
}.

Inductive message :=
| RangeTooLong          (* line 168 *)
| RangeIncomplete       (* line 171 *)
| CityNotFound          (* line 184 *)
| WeatherUnavailable.   (* line 193 *)

Inductive metric_label :=
| MaxTemperature        (* "最高気温" *)
| MinTemperature        (* "最低気温" *)
| MaxWindspeed.         (* "最大風速" *)

Inductive element :=
| StError (m : message)
| StWarning (m : message)
| SidebarSource
| RouteHeader (from_coord to_coord : Location) (distance : Q)
| Subheader
| Metric (label : metric_label) (value : reading)
| DataStatusNormal      (* col4.metric("データ状況", "正常", ...) *)
| TemperatureChart
| WindChart
| Footer.

(** [Series.max()] and [Series.min()]: missing values are skipped, and the
    result is missing when nothing is left. *)
Definition pick (better : Q -> Q -> bool) (acc x : reading) : reading :=
  match acc, x with
  | None, _ => x
  | Some _, None => acc
  | Some a, Some b => if better b a then x else acc
  end.

Definition series_max (xs : list reading) : reading :=
  fold_left (pick (fun b a => negb (Qle_bool b a))) xs None.

Definition series_min (xs : list reading) : reading :=
  fold_left (pick (fun b a => negb (Qle_bool a b))) xs None.

(** Lines 216-220: the summary over the daily frame. *)
Definition summarize (df_daily : list daily_row) : WeatherSummary :=
  {| max_t := series_max (List.map temperature_2m_max df_daily);
     min_t := series_min (List.map temperature_2m_min df_daily);
     max_w := series_max (List.map windspeed_10m_max df_daily) |}.

Section Script.

(** [geodesic(p1, p2).kilometers] of geopy, which the script only calls
    ([inr]: it raises). *)
Variable geodesic_kilometers : Q * Q -> Q * Q -> Q + exn.

(** Lines 129-131. *)
Definition calculate_distance (lat1 lon1 lat2 lon2 : Q) : Q + exn :=
  geodesic_kilometers (lat1, lon1) (lat2, lon2).

(** Lines 164-172.  [date_range] is the tuple [st.sidebar.date_input]
    returns. *)
Definition validate (date_range : list date) : M element (date * date) :=
  match date_range with
  | [start_date; end_date] =>
      if end_date - start_date >? 14 then
        emit (StError RangeTooLong) ;;; stop
      else ret (start_date, end_date)
  | _ =>
      emit (StWarning RangeIncomplete) ;;; stop
  end.

(** Lines 212-225. *)
Definition show_summary (df_daily : list daily_row) : M element unit :=
  let s := summarize df_daily in
  emit (Metric MaxTemperature (max_t s)) ;;;
  emit (Metric MinTemperature (min_t s)) ;;;
  emit (Metric MaxWindspeed (max_w s)) ;;;
  emit DataStatusNormal.

(** The script from line 164 on.  [from_coord] and [to_coord] are the
    answers of [get_coordinates], [weather_daily] the daily part of the
    answer of [get_weather_data]; the hourly part only feeds the two
    charts.  What the helpers show on their own, and the reading of the
    fetched body into frames (lines 216 and 232-233, which raise on a body
    of another shape), lie outside this function. *)
Definition app (date_range : list date)
    (from_coord to_coord : option Location)
    (weather_daily : option (list daily_row)) : M element unit :=
  window <- validate date_range ;;
  emit SidebarSource ;;;
  match from_coord, to_coord with
  | Some from_coord, Some to_coord =>
      match calculate_distance (lat from_coord) (lon from_coord)
                               (lat to_coord) (lon to_coord) with
      | inl distance =>
          match weather_daily with
          | Some df_daily =>
              emit (RouteHeader from_coord to_coord distance) ;;;
              emit Subheader ;;;
              show_summary df_daily ;;;
              emit TemperatureChart ;;;
              emit WindChart ;;;
              emit Footer
          | None =>
              emit (StError WeatherUnavailable) ;;; stop
          end
      | inr e => raise e
      end
  | _, _ =>
      emit (StError CityNotFound) ;;; stop
  end.

End Script.

Definition is_metric (e : element) : bool :=
  match e with Metric _ _ => true | _ => false end.

Definition is_warning (e : element) : bool :=
  match e with StWarning _ => true | _ => false end.

(** The elements of the page body, from the route header to the footer. *)
Definition is_body (e : element) : bool :=
  match e with
  | RouteHeader _ _ _ | Subheader | Metric _ _ | DataStatusNormal
  | TemperatureChart | WindChart | Footer => true
  | StError _ | StWarning _ | SidebarSource => false
  end.

(** Two statistics agree: both missing, or both present and equal as
    numbers. *)
Definition same_reading (a b : reading) : Prop :=
  match a, b with
  | None, None => True
  | Some x, Some y => (x == y)%Q
  | _, _ => False
  end.

(** ** The aggregator as the specification words it

    Entries whose date lies in the inclusive window are kept; when none is
    left the whole series is used and a warning is signalled. *)
Module Spec.

Definition in_window (start_date end_date : date) (r : daily_row) : bool :=
  (start_date <=? time r) && (time r <=? end_date).

Definition windowed (start_date end_date : date) (series : list daily_row) :=
  filter (in_window start_date end_date) series.

(** The naive scan over a list of readings: the first entry is compared
    with the result for the entries after it, and [keep a b] says that
    the reading [a] stays against the later [b]. *)
Fixpoint naive_extreme (keep : Q -> Q -> bool) (xs : list reading) : reading :=
  match xs with
  | [] => None
  | None :: rest => naive_extreme keep rest
  | Some a :: rest =>
      match naive_extreme keep rest with
      | None => Some a
      | Some b => if keep a b then Some a else Some b
      end
  end.

(** The naive scan over a list of entries: the greatest maximum, the least
    minimum and the greatest wind speed among the readings that are
    present. *)
Definition scan (entries : list daily_row) : WeatherSummary :=
  {| max_t := naive_extreme (fun a b => Qle_bool b a)
                            (List.map temperature_2m_max entries);
     min_t := naive_extreme (fun a b => Qle_bool a b)
                            (List.map temperature_2m_min entries);
     max_w := naive_extreme (fun a b => Qle_bool b a)
                            (List.map windspeed_10m_max entries) |}.

(** The summary, and whether [WindowOutOfRange] is signalled. *)
Definition summarize_window (series : list daily_row) (start_date end_date : date)
  : WeatherSummary * bool :=
  match windowed start_date end_date series with
  | [] => (scan series, true)
  | entries => (scan entries, false)
  end.

End Spec.

End WeatherDashboard.

(* ================================================================== *)
(** * weather_dashboard.py: the fetch helpers *)
(* ================================================================== *)

Module WeatherFetch.

Local Open Scope script_scope.

(** The [st.error] of a handler. *)
Inductive fetch_message :=
| GeocodingError        (* line 114 *)
| WeatherFetchError.    (* line 126 *)

(** The dict [get_coordinates] returns. *)
Record coordinates := {
  name : json;
  lat : json;
  lon : json;
  country : json
}.

(** Lines 104-112, inside the [try]: the outer [None] stands for an
    exception, which the handler of line 113 catches whatever it is. *)
Definition first_result (data : json) : option (option coordinates) :=
  match data with
  | JObj fields =>
      match lookup (lit "results") fields with
      | Some results =>
          if truthy results then
            match results with
            | JArr (JObj result :: _) =>
                match lookup (lit "name") result,
                      lookup (lit "latitude") result,
                      lookup (lit "longitude") result with
                | Some n, Some la, Some lo =>
                    Some (Some {| name := n; lat := la; lon := lo;
                                  country :=
                                    match lookup (lit "country") result with
                                    | Some c => c
                                    | None => JStr []
                                    end |})
                | _, _, _ => None
                end
            | _ => None
            end
          else Some None
      | None => Some None
      end
  | _ => None
  end.

(** [get_coordinates(city_name)], lines 98-115, for the reply the
    geocoding service gives to the request for [city_name]. *)
Definition get_coordinates (r : response) : M fetch_message (option coordinates) :=
  match r with
  | Unreachable => emit GeocodingError ;;; ret None
  | Reply status_code body =>
      if status_code =? 200 then
        match body with
        | Some data =>
            match first_result data with
            | Some answer => ret answer
            | None => emit GeocodingError ;;; ret None
            end
        | None => emit GeocodingError ;;; ret None
        end
      else ret None
  end.


Definition tokyo_name : str := [26481; 20140]%N.      (* "東京" *)

(** [get_initial_city()], lines 139-146: the handler swallows every
    exception. *)
Definition get_initial_city (r : response) : json :=
  match r with
  | Unreachable => JStr tokyo_name
  | Reply status_code body =>
      if status_code =? 200 then
        match body with
        | Some (JObj fields) =>
            match lookup (lit "city") fields with
            | Some city => city
            | None => JStr tokyo_name
            end
        | _ => JStr tokyo_name
        end
      else JStr tokyo_name
  end.

End WeatherFetch.

(* ================================================================== *)
(** * app.py *)
(* ================================================================== *)

Module NewsApp.

Local Open Scope script_scope.

(** An entry of the parsed feed.  A field the feed did not carry is [None];
    reading it raises [AttributeError]. *)
Record entry := {
  title : option str;
  published : option str;
  summary : option str;
  link : option str
}.

Inductive element :=
| Header
| NoNewsWarning         (* line 116 *)
| QueryHint             (* line 141 *)
| Card (title formatted_date summary link : str)
| Footer.

Section Script.

(** [datetime.strptime(s, '%a, %d %b %Y %H:%M:%S %Z')] and
    [dt.strftime('%Y年%m月%d日 %H:%M')] of the standard library, which the
    script only calls ([None]: it raises). *)
Variable datetime : Type.
Variable strptime : str -> option datetime.
Variable strftime : datetime -> option str.

(** Lines 125-129.  The handler reads [entry.published] again, so an entry
    without the field raises out of it. *)
Definition format_date (e : entry) : str + exn :=
  let attempt :=
    match published e with
    | Some raw =>
        match strptime raw with
        | Some dt => strftime dt
        | None => None
        end
    | None => None
    end in
  match attempt with
  | Some formatted_date => inl formatted_date
  | None =>
      match published e with
      | Some raw => inl raw
      | None => inr AttributeError
      end
  end.

Definition attr (field : option str) : M element str :=
  match field with
  | Some v => ret v
  | None => raise AttributeError
  end.

(** Lines 123-139: one iteration of the loop. *)
Definition show_entry (e : entry) : M element unit :=
  match format_date e with
  | inl formatted_date =>
      t <- attr (title e) ;;
      s <- attr (summary e) ;;
      l <- attr (link e) ;;
      emit (Card t formatted_date s l)
  | inr ex => raise ex
  end.

(** The script from line 109 on; [entries] is what [fetch_news] returns
    for the query. *)
Definition app (search_query : str) (entries : list entry) : M element unit :=
  emit Header ;;;
  match search_query with
  | [] => emit QueryHint
  | _ =>
      match entries with
      | [] => emit NoNewsWarning
      | _ => for_each (firstn 15 entries) show_entry
      end
  end ;;;
  emit Footer.

(** The card of an entry that carries all four fields. *)
Definition complete (e : entry) : bool :=
  match title e, published e, summary e, link e with
  | Some _, Some _, Some _, Some _ => true
  | _, _, _, _ => false
  end.

Definition text (field : option str) : str :=
  match field with Some v => v | None => [] end.

Definition card_of (e : entry) : element :=
  Card (text (title e))
       (match format_date e with inl d => d | inr _ => [] end)
       (text (summary e)) (text (link e)).

Definition is_card (e : element) : bool :=
  match e with Card _ _ _ _ => true | _ => false end.

End Script.

End NewsApp.

(* ================================================================== *)
(** * Instances used in the examples *)
(* ================================================================== *)

Module Examples.

(** Insertion of a keyed row before the first row with a larger key: a
    sort that keeps rows with equal keys in their order. *)
Fixpoint insert_keyed (x : cell * list cell) (l : list (cell * list cell)) :=
  match l with
  | [] => [x]
  | y :: l' =>
      if key_leb (fst x) (fst y) then x :: l
      else y :: insert_keyed x l'
  end.

Definition insertion_sort (l : list (cell * list cell)) :=
  fold_right insert_keyed [] l.

(** [int(s)] on plain ASCII decimal digits with an optional sign. *)
Fixpoint decimal_value (acc : Z) (s : str) : option Z :=
  match s with
  | [] => Some acc
  | c :: s' =>
      if ((48 <=? c) && (c <=? 57))%N
      then decimal_value (10 * acc + Z.of_N (c - 48)) s'
      else None
  end.

Definition ascii_int (s : str) : option Z :=
  match s with
  | [] => None
  | 45%N :: ((_ :: _) as s') => option_map Z.opp (decimal_value 0 s')
  | 43%N :: ((_ :: _) as s') => decimal_value 0 s'
  | _ => decimal_value 0 s
  end.

(** The frames of the examples hold no floats. *)
Definition stable_builtins : Builtins :=
  {| int_of_str := ascii_int;
     repr_float := fun _ => lit "0.0";
     quicksort := insertion_sort |}.

(** The frames of the examples: one live, and its songs. *)
Definition url : str := lit "https://x.com/watch?v=1".

Definition one_live : DataFrame :=
  {| columns := [LiveView.col_date; LiveView.col_live_name;
                 LiveView.col_live_id; LiveView.col_video_link];
     rows := [[Str (lit "2024-05-01"); Str (lit "Spring"); Int 1; Str url]] |}.

Definition song_columns : list str :=
  [LiveView.col_live_id; LiveView.col_order; LiveView.col_song_name;
   LiveView.col_vocal; LiveView.col_starttime].

Definition song (live_id order : Z) (name : string) (starttime : cell) : list cell :=
  [Int live_id; Int order; Str (lit name); Str (lit "V"); starttime].

Definition songs (rs : list (list cell)) : DataFrame :=
  {| columns := song_columns; rows := rs |}.

Definition first_live : Series :=
  {| index := columns one_live; values := hd [] (rows one_live) |}.

(** Two cities, a stand-in for the geodesic distance, and a daily series
    of two days. *)
Definition tokyo : WeatherDashboard.Location :=
  {| WeatherDashboard.name := lit "Tokyo";
     WeatherDashboard.lat := 356762 # 10000;
     WeatherDashboard.lon := 1396503 # 10000;
     WeatherDashboard.country := lit "Japan" |}.

Definition osaka : WeatherDashboard.Location :=
  {| WeatherDashboard.name := lit "Osaka";
     WeatherDashboard.lat := 346937 # 10000;
     WeatherDashboard.lon := 1355023 # 10000;
     WeatherDashboard.country := lit "Japan" |}.

Definition about_400_km : Q * Q -> Q * Q -> Q + exn := fun _ _ => inl (400 # 1).

Definition day (t hi lo wind : Z) : WeatherDashboard.daily_row :=
  {| WeatherDashboard.time := t;
     WeatherDashboard.temperature_2m_max := Some (inject_Z hi);
     WeatherDashboard.temperature_2m_min := Some (inject_Z lo);
     WeatherDashboard.windspeed_10m_max := Some (inject_Z wind) |}.

Definition two_days : list WeatherDashboard.daily_row :=
  [day 1 10 0 5; day 2 20 8 9].

(** A stand-in for the date parser that accepts one date only, and two
    feed entries. *)
Definition rfc_date : str := lit "Mon, 01 Jan 2024 10:00:00 GMT".

Definition parse_one (s : str) : option unit :=
  if str_eqb s rfc_date then Some tt else None.

Definition print_one (_ : unit) : option str := Some (lit "2024-01-01 10:00").

Definition news (date : string) : NewsApp.entry :=
  {| NewsApp.title := Some (lit "T");
     NewsApp.published := Some (lit date);
     NewsApp.summary := Some (lit "S");
     NewsApp.link := Some (lit "L") |}.

(** An answer of the geocoding service with two results, the first
    without a country. *)
Definition geocoding_answer : json :=
  JObj [(lit "results",
         JArr [JObj [(lit "name", JStr (lit "Osaka"));
                     (lit "latitude", JNum (346937 # 10000));
                     (lit "longitude", JNum (1355023 # 10000))];
               JObj [(lit "name", JStr (lit "Osaka, Other"))]])].

End Examples.

(* ================================================================== *)
(** * Facts about the Python values *)
(* ================================================================== *)

Lemma str_eqb_eq (a b : str) : str_eqb a b = true <-> a = b.
Proof.
  revert b; induction a as [|x a IH]; intros [|y b]; simpl; split;
    try congruence; try discriminate.
  - intros E. apply andb_true_iff in E. destruct E as [E1 E2].
    apply N.eqb_eq in E1. apply IH in E2. congruence.
  - intros E. injection E as -> ->. rewrite N.eqb_refl. simpl. now apply IH.
Qed.

Lemma str_eqb_refl (a : str) : str_eqb a a = true.
Proof. now apply str_eqb_eq. Qed.

Lemma has_label_In (name : str) (labels : list str) :
  has_label name labels = true <-> In name labels.
Proof.
  unfold has_label. rewrite existsb_exists. split.
  - intros [l [Hin E]]. apply str_eqb_eq in E. now subst.
  - intros Hin. exists name. split; [assumption | apply str_eqb_refl].
Qed.

Example str_of_int_90 : str_of_int 90 = lit "90".
Proof. reflexivity. Qed.

Example str_of_int_negative : str_of_int (-7) = lit "-7".
Proof. reflexivity. Qed.

Example str_of_int_zero : str_of_int 0 = lit "0".
Proof. reflexivity. Qed.

(** [int(90.7) == 90] and [int(-90.7) == -90]. *)
Example py_int_truncates :
  @py_int Examples.stable_builtins (Float (907 # 10)) = inl 90
  /\ @py_int Examples.stable_builtins (Float (-907 # 10)) = inl (-90).
Proof. split; reflexivity. Qed.

(** [1 == 1.0], and a missing value equals nothing, itself included. *)
Example cell_eqb_by_value :
  cell_eqb (Int 1) (Float (1 # 1)) = true /\ cell_eqb NaN NaN = false.
Proof. split; reflexivity. Qed.

(** Running a script step by step. *)
Lemma bind_ret {E A B} (a : A) (k : A -> M E B) : bind (ret a) k = k a.
Proof. unfold bind, ret. destruct (k a); reflexivity. Qed.

Lemma bind_emit {E B} (e : E) (k : unit -> M E B) :
  bind (emit e) k = (e :: fst (k tt), snd (k tt)).
Proof. unfold bind, emit. destruct (k tt); reflexivity. Qed.

Lemma bind_halt {E A B} (out : list E) (h : halt) (k : A -> M E B) :
  bind (out, inr h) k = (out, inr h).
Proof. reflexivity. Qed.

Lemma bind_assoc {E A B C} (m : M E A) (k : A -> M E B) (k' : B -> M E C) :
  bind (bind m k) k' = bind m (fun a => bind (k a) k').
Proof.
  destruct m as [out [a|h]]; simpl; [|reflexivity].
  destruct (k a) as [out1 [b|h]]; simpl; [|reflexivity].
  destruct (k' b) as [out2 r]. now rewrite app_assoc.
Qed.

(** ** [str.strip] *)

Lemma lstrip_split (s : str) :
  exists p, s = p ++ lstrip s /\ forallb isspace p = true.
Proof.
  induction s as [|c s IH]; simpl.
  - exists []. split; reflexivity.
  - destruct (isspace c) eqn:E.
    + destruct IH as [p [Hs Hp]]. exists (c :: p). simpl.
      rewrite E, Hp. split; [now f_equal | reflexivity].
    + exists []. split; reflexivity.
Qed.

Lemma lstrip_head (s : str) (c : N) (r : str) :
  lstrip s = c :: r -> isspace c = false.
Proof.
  induction s as [|d s IH]; simpl; [discriminate|].
  destruct (isspace d) eqn:E; [assumption|].
  intros Heq. injection Heq as -> _. assumption.
Qed.

Lemma rstrip_split (s : str) :
  exists q, s = rstrip s ++ q /\ forallb isspace q = true.
Proof.
  unfold rstrip. destruct (lstrip_split (rev s)) as [p [Hs Hp]].
  exists (rev p). split.
  - rewrite <- rev_app_distr, <- Hs. symmetry. apply rev_involutive.
  - rewrite forallb_forall in *. intros x Hx. apply Hp. now apply in_rev.
Qed.

Lemma rstrip_last (s : str) (c : N) (r : str) :
  rstrip s = r ++ [c] -> isspace c = false.
Proof.
  unfold rstrip. intros Heq.
  apply (f_equal (@rev N)) in Heq.
  rewrite rev_involutive, rev_app_distr in Heq. simpl in Heq.
  exact (lstrip_head _ _ _ Heq).
Qed.

(** A tab, spaces and an ideographic space around "ab c". *)
Example strip_padded :
  strip ([9; 32; 12288] ++ lit "ab c" ++ [32; 10])%N = lit "ab c".
Proof. reflexivity. Qed.

(** What [strip] removes is whitespace at the two ends, and nothing else. *)
Lemma strip_split (s : str) :
  exists p q, s = p ++ strip s ++ q
              /\ forallb isspace p = true /\ forallb isspace q = true.
Proof.
  unfold strip.
  destruct (lstrip_split s) as [p [Hs Hp]].
  destruct (rstrip_split (lstrip s)) as [q [Ht Hq]].
  exists p, q. split; [|split; assumption].
  rewrite <- Ht. exact Hs.
Qed.

Lemma strip_last (s : str) (c : N) (r : str) :
  strip s = r ++ [c] -> isspace c = false.
Proof. unfold strip. apply rstrip_last. Qed.

Lemma strip_head (s : str) (c : N) (r : str) :
  strip s = c :: r -> isspace c = false.
Proof.
  unfold strip. intros Heq.
  destruct (rstrip_split (lstrip s)) as [q [Ht _]].
  rewrite Heq in Ht. simpl in Ht.
  exact (lstrip_head _ _ _ Ht).
Qed.

Lemma strip_trimmed (s : str) : trimmed (strip s).
Proof.
  split; intros c r Heq; [eapply strip_head | eapply strip_last]; eassumption.
Qed.

(* ================================================================== *)
(** * VSOP-LIVEVIEW/streamlit_app.py: properties *)
(* ================================================================== *)

Section LiveViewFacts.

Import LiveView.
Context `{Builtins}.

Local Open Scope script_scope.

Lemma py_int_notna (c : cell) (t : Z) : py_int c = inl t -> notna c = true.
Proof. destruct c; simpl; intros E; try reflexivity; discriminate. Qed.

(** The link of a song whose offset [int] accepts. *)
Lemma youtube_link_parsed (video_link_base starttime : cell) (t : Z) :
  notna video_link_base = true ->
  py_int starttime = inl t ->
  youtube_link video_link_base starttime =
    inl (Str (py_str video_link_base
              ++ (if contains 63%N (py_str video_link_base) then lit "&" else lit "?")
              ++ lit "t=" ++ str_of_int t)).
Proof.
  intros Hb Ht. unfold youtube_link.
  rewrite Hb, (py_int_notna _ _ Ht), Ht. reflexivity.
Qed.

(** The link of a song whose offset is text that [int] rejects: the base
    link as it is. *)
Lemma youtube_link_text_rejected (video_link_base : cell) (s : str) :
  notna video_link_base = true ->
  int_of_str s = None ->
  youtube_link video_link_base (Str s) = inl video_link_base.
Proof.
  intros Hb Hs. unfold youtube_link. rewrite Hb. simpl. rewrite Hs. reflexivity.
Qed.

(** A song without an offset, or a live without a link, gets no link. *)
Lemma youtube_link_missing (video_link_base starttime : cell) :
  notna video_link_base && notna starttime = false ->
  youtube_link video_link_base starttime = inl (Str []).
Proof. intros E. unfold youtube_link. rewrite E. reflexivity. Qed.

(** C5.  For a base link [base] and an offset that reads as the integer
    [t], the derived link is [base] followed by "&t=" and [t] when [base]
    contains a "?", and by "?t=" and [t] otherwise; the song line shows that
    link after the song name and the vocal. *)
Theorem deep_link_appends_offset (base : str) (starttime : cell) (t : Z) (song : Series) :
  py_int starttime = inl t ->
  item song col_starttime = starttime ->
  let link := base ++ (if contains 63%N base then lit "&t=" else lit "?t=")
                   ++ str_of_int t in
  youtube_link (Str base) starttime = inl (Str link)
  /\ show_song (Str base) song =
       emit (StWrite (strip (py_str (item song col_song_name) ++ lit " "
                             ++ py_str (item song col_vocal) ++ lit " " ++ link))).
Proof.
  intros Ht Hs link.
  assert (Hl : youtube_link (Str base) starttime = inl (Str link)).
  { rewrite (youtube_link_parsed (Str base) starttime t eq_refl Ht). subst link.
    simpl. destruct (contains 63%N base); reflexivity. }
  split; [exact Hl|].
  unfold show_song. rewrite Hs, Hl. reflexivity.
Qed.

(** C6.  When 'ライブID' is absent from the lives or from the songs, the
    join warns about the missing key and stops the run: the page ends
    early and shows no song line, and once a live could be selected the
    warning is the last thing shown. *)
Theorem missing_join_key_halts (df_lives df_songs : DataFrame)
    (selected_live_row : Series) (choice : nat) :
  has_label col_live_id (columns df_lives) = false
  \/ has_label col_live_id (columns df_songs) = false ->
  join df_lives df_songs selected_live_row = ([StWarning MissingJoinKey], inr Stopped)
  /\ ending (render df_lives df_songs choice) <> None
  /\ filter is_write (shown (render df_lives df_songs choice)) = []
  /\ (has_label col_date (columns df_lives) = true ->
      has_label col_live_name (columns df_lives) = true ->
      (choice < List.length (rows df_lives))%nat ->
      render df_lives df_songs choice =
        ([Title; SidebarHeader; Selectbox; StWarning MissingJoinKey], inr Stopped)).
Proof.
  intros Hmiss.
  assert (Hk : has_label col_live_id (columns df_lives)
               && has_label col_live_id (columns df_songs) = false).
  { apply andb_false_iff. exact Hmiss. }
  assert (Hj : forall row, join df_lives df_songs row
                           = ([StWarning MissingJoinKey], inr Stopped)).
  { intros row. unfold join. rewrite Hk. reflexivity. }
  split; [apply Hj|].
  unfold render, select_live.
  destruct (has_label col_date (columns df_lives)
            && has_label col_live_name (columns df_lives)) eqn:Hside.
  - unfold iloc.
    destruct (nth_error (rows df_lives) choice) as [r|] eqn:Hr.
    + cbn. rewrite Hj. cbn.
      refine (conj _ (conj eq_refl _)); [discriminate|]. intros _ _ _. reflexivity.
    + cbn. refine (conj _ (conj eq_refl _)); [discriminate|].
      intros _ _ Hlt. apply nth_error_None in Hr. lia.
  - cbn. refine (conj _ (conj eq_refl _)); [discriminate|].
    intros H1 H2. rewrite H1, H2 in Hside. discriminate.
Qed.

End LiveViewFacts.

(* ================================================================== *)
(** * The order of [sort_values] *)
(* ================================================================== *)

Lemma str_leb_total (a b : str) : str_leb a b = true \/ str_leb b a = true.
Proof.
  revert b; induction a as [|x a IH]; intros [|y b]; simpl; auto.
  destruct (N.ltb_spec x y); [now left|].
  destruct (N.ltb_spec y x); [now right|].
  assert (x = y) by lia. subst y. rewrite N.eqb_refl. apply IH.
Qed.

Lemma str_leb_trans (a b c : str) :
  str_leb a b = true -> str_leb b c = true -> str_leb a c = true.
Proof.
  revert b c; induction a as [|x a IH]; intros [|y b] [|z c]; simpl; auto;
    try discriminate.
  destruct (N.ltb_spec x y) as [Hxy|Hxy].
  - intros _. destruct (N.ltb_spec y z) as [Hyz|Hyz].
    + intros _. destruct (N.ltb_spec x z); [reflexivity | lia].
    + destruct (N.eqb_spec y z) as [->|]; [|discriminate].
      intros _. destruct (N.ltb_spec x z); [reflexivity | lia].
  - destruct (N.eqb_spec x y) as [->|]; [|discriminate].
    intros Hab. destruct (N.ltb_spec y z) as [Hyz|Hyz]; [reflexivity|].
    destruct (N.eqb_spec y z) as [->|]; [|discriminate].
    apply IH. exact Hab.
Qed.

Lemma ext_leb_total (a b : ext) : ext_leb a b = true \/ ext_leb b a = true.
Proof.
  destruct a as [|x|], b as [|y|]; simpl; auto.
  destruct (Qlt_le_dec y x) as [Hlt|Hle].
  - right. apply Qle_bool_iff. now apply Qlt_le_weak.
  - left. now apply Qle_bool_iff.
Qed.

Lemma ext_leb_trans (a b c : ext) :
  ext_leb a b = true -> ext_leb b c = true -> ext_leb a c = true.
Proof.
  destruct a as [|x|], b as [|y|], c as [|z|]; simpl; auto; try discriminate.
  rewrite !Qle_bool_iff. apply Qle_trans.
Qed.

Lemma key_leb_total (a b : cell) : key_leb a b = true \/ key_leb b a = true.
Proof.
  destruct a as [|x|x|[|]|s], b as [|y|y|[|]|t]; simpl; auto;
    try apply str_leb_total;
    match goal with
    | |- Qle_bool ?p ?q = true \/ _ => exact (ext_leb_total (Fin p) (Fin q))
    end.
Qed.

Lemma key_leb_trans (a b c : cell) :
  key_leb a b = true -> key_leb b c = true -> key_leb a c = true.
Proof.
  destruct a as [|x|x|[|]|s], b as [|y|y|[|]|t], c as [|z|z|[|]|u];
    simpl; auto; try discriminate;
    try apply str_leb_trans;
    match goal with
    | |- Qle_bool ?p ?q = true -> Qle_bool _ ?r = true -> _ =>
        exact (ext_leb_trans (Fin p) (Fin q) (Fin r))
    end.
Qed.

(** ** The sort of the examples keeps the promise of [sort_values] *)

Lemma insert_keyed_perm x l : Permutation (x :: l) (Examples.insert_keyed x l).
Proof.
  induction l as [|y l IH]; simpl; [reflexivity|].
  destruct (key_leb (fst x) (fst y)); [reflexivity|].
  rewrite perm_swap. now apply perm_skip.
Qed.

Lemma insert_keyed_ascending x l :
  ascending l -> ascending (Examples.insert_keyed x l).
Proof.
  unfold ascending. induction l as [|y l IH]; simpl; intros Hs.
  - repeat constructor.
  - destruct (key_leb (fst x) (fst y)) eqn:E.
    + constructor; [assumption | now constructor].
    + inversion Hs as [|? ? Hl Hhd]; subst.
      constructor; [now apply IH|].
      assert (Hyx : key_leb (fst y) (fst x) = true).
      { destruct (key_leb_total (fst x) (fst y)); congruence. }
      destruct l as [|z l]; simpl; [now constructor|].
      destruct (key_leb (fst x) (fst z)); constructor; [assumption|].
      now inversion Hhd.
Qed.

Lemma insertion_sort_perm l : Permutation l (Examples.insertion_sort l).
Proof.
  induction l as [|x l IH]; simpl; [reflexivity|].
  rewrite <- insert_keyed_perm. now apply perm_skip.
Qed.

Lemma insertion_sort_ascending l : ascending (Examples.insertion_sort l).
Proof.
  induction l as [|x l IH]; simpl; [constructor|].
  now apply insert_keyed_ascending.
Qed.

Lemma insertion_sort_contract : sort_contract Examples.insertion_sort.
Proof.
  intros l _. split; [apply insertion_sort_perm | apply insertion_sort_ascending].
Qed.


(* ================================================================== *)
(** * VSOP-LIVEVIEW/streamlit_app.py: the joined and ordered songs *)
(* ================================================================== *)

Lemma combine_map_self {A B} (f : A -> B) (l : list A) :
  combine (List.map f l) l = List.map (fun r => (f r, r)) l.
Proof. induction l as [|x l IH]; simpl; [reflexivity | now rewrite IH]. Qed.

Lemma map_snd_keyed {A B} (f : A -> B) (l : list A) :
  List.map snd (List.map (fun r => (f r, r)) l) = l.
Proof. rewrite map_map. simpl. apply map_id. Qed.

Lemma map_fst_keyed {A B} (f : A -> B) (l : list A) :
  List.map fst (List.map (fun r => (f r, r)) l) = List.map f l.
Proof. rewrite map_map. reflexivity. Qed.

Lemma key_leb_on_fst_trans :
  Relations_1.Transitive (fun a b : cell * list cell => key_leb (fst a) (fst b) = true).
Proof. intros a b c. apply key_leb_trans. Qed.

Lemma strongly_sorted_rows (key : list cell -> cell) (q : list (cell * list cell)) :
  Forall (fun p => fst p = key (snd p)) q ->
  StronglySorted (fun a b => key_leb (fst a) (fst b) = true) q ->
  StronglySorted (fun r1 r2 => key_leb (key r1) (key r2) = true) (List.map snd q).
Proof.
  intros Hkey Hs. induction Hs as [|p q Hq IH Hall]; simpl; constructor.
  - apply IH. now inversion Hkey.
  - inversion Hkey as [|? ? Hp Hrest]; subst.
    rewrite Forall_forall in *. intros r Hr.
    apply in_map_iff in Hr. destruct Hr as [p' [<- Hin]].
    rewrite <- Hp, <- (Hrest p' Hin). now apply Hall.
Qed.

(** What a sort that keeps the promise returns for a list of rows. *)
Lemma sorted_rows (sort : list (cell * list cell) -> list (cell * list cell))
    (key : list cell -> cell) (l : list (list cell)) :
  sort_contract sort ->
  comparable (List.map key l) = true ->
  Permutation l (List.map snd (sort (combine (List.map key l) l)))
  /\ StronglySorted (fun r1 r2 => key_leb (key r1) (key r2) = true)
                    (List.map snd (sort (combine (List.map key l) l))).
Proof.
  intros Hc Hcmp. rewrite combine_map_self.
  destruct (Hc (List.map (fun r => (key r, r)) l)) as [Hperm Hasc].
  { now rewrite map_fst_keyed. }
  split.
  - rewrite <- (map_snd_keyed key l) at 1. now apply Permutation_map.
  - apply strongly_sorted_rows.
    + rewrite Forall_forall. intros p Hp.
      apply (Permutation_in _ (Permutation_sym Hperm)) in Hp.
      apply in_map_iff in Hp. destruct Hp as [r [<- _]]. reflexivity.
    + apply Sorted_StronglySorted; [exact key_leb_on_fst_trans | exact Hasc].
Qed.

Section JoinedSongs.

Import LiveView.
Context `{Builtins}.

Local Open Scope script_scope.

Lemma join_found (df_lives df_songs : DataFrame) (selected_live_row : Series) :
  has_label col_live_id (columns df_lives) = true ->
  has_label col_live_id (columns df_songs) = true ->
  join df_lives df_songs selected_live_row =
    ret (where_eq df_songs col_live_id (item selected_live_row col_live_id)).
Proof. intros H1 H2. unfold join. rewrite H1, H2. reflexivity. Qed.

(** Without a '曲順' column the songs stay in the order they were read. *)
Lemma order_songs_without_column (songs_to_display : DataFrame) :
  has_label col_order (columns songs_to_display) = false ->
  order_songs songs_to_display = ([StWarning MissingOrder], inl songs_to_display).
Proof. intros E. unfold order_songs. rewrite E. reflexivity. Qed.

(** Order values that cannot be compared end the run. *)
Lemma order_songs_incomparable (songs_to_display : DataFrame) :
  has_label col_order (columns songs_to_display) = true ->
  comparable (column songs_to_display col_order) = false ->
  order_songs songs_to_display = raise TypeError.
Proof.
  intros E Hc. unfold order_songs, sort_values. rewrite E, Hc. reflexivity.
Qed.

(** With both key columns and the order column present, and order
    values that can be compared, the join returns the
    song rows whose 'ライブID' equals the selected one, each once, ascending
    by '曲順' with missing values last, for every ordering step that keeps
    the promise of the default [sort_values]; the two songs B (order 2) and
    A (order 1) of live 1 come back as A, B. *)
Theorem join_filters_and_sorts (df_lives df_songs : DataFrame)
    (selected_live_row : Series) :
  sort_contract quicksort ->
  has_label col_live_id (columns df_lives) = true ->
  has_label col_live_id (columns df_songs) = true ->
  has_label col_order (columns df_songs) = true ->
  let live_id := item selected_live_row col_live_id in
  comparable (List.map (order_key df_songs) (songs_of df_songs live_id)) = true ->
  (exists out,
     joined_songs df_lives df_songs selected_live_row = ret out
     /\ columns out = columns df_songs
     /\ Permutation (songs_of df_songs live_id) (rows out)
     /\ StronglySorted
          (fun r1 r2 => key_leb (order_key df_songs r1) (order_key df_songs r2) = true)
          (rows out))
  /\ joined_songs Examples.one_live
       (Examples.songs [Examples.song 1 2 "B" (Int 0); Examples.song 1 1 "A" (Int 0)])
       Examples.first_live
     = ret (Examples.songs
              [Examples.song 1 1 "A" (Int 0); Examples.song 1 2 "B" (Int 0)]).
Proof.
  intros Hc Hl Hs Ho live_id Hcmp.
  assert (Hgen : forall dl ds row,
            has_label col_live_id (columns dl) = true ->
            has_label col_live_id (columns ds) = true ->
            has_label col_order (columns ds) = true ->
            comparable (List.map (order_key ds) (songs_of ds (item row col_live_id))) = true ->
            joined_songs dl ds row =
              ret {| columns := columns ds;
                     rows := List.map snd (quicksort
                               (combine (List.map (order_key ds)
                                           (songs_of ds (item row col_live_id)))
                                        (songs_of ds (item row col_live_id)))) |}).
  { intros dl ds row H1 H2 H3 H4. unfold joined_songs.
    rewrite (join_found dl ds row H1 H2), bind_ret.
    unfold order_songs, sort_values, column. simpl. rewrite H3.
    fold (songs_of ds (item row col_live_id)). fold (order_key ds).
    rewrite H4. reflexivity. }
  split.
  - eexists. split; [apply Hgen; assumption|]. simpl.
    split; [reflexivity|]. apply sorted_rows; assumption.
  - rewrite Hgen; try reflexivity. f_equal. unfold Examples.songs. f_equal.
    set (b := Examples.song 1 2 "B" (Int 0)).
    set (a := Examples.song 1 1 "A" (Int 0)).
    destruct (sorted_rows quicksort (order_key (Examples.songs [b; a]))
                (songs_of (Examples.songs [b; a])
                          (item Examples.first_live col_live_id)) Hc eq_refl)
      as [Hperm Hsorted].
    change (songs_of (Examples.songs [b; a]) (item Examples.first_live col_live_id))
      with [b; a] in *.
    simpl columns.
    apply Permutation_length_2_inv in Hperm. destruct Hperm as [E|E]; [|exact E].
    rewrite E in Hsorted. exfalso.
    inversion Hsorted as [|? ? _ Hall]; subst.
    inversion Hall as [|? ? Hba _]; subst. vm_compute in Hba. discriminate.
Qed.

End JoinedSongs.

Lemma join_filters_and_sorts_witness :
  exists out,
    @LiveView.joined_songs Examples.stable_builtins Examples.one_live
      (Examples.songs [Examples.song 1 2 "B" (Int 0); Examples.song 1 1 "A" (Int 0)])
      Examples.first_live = ret out
    /\ Permutation
         [Examples.song 1 2 "B" (Int 0); Examples.song 1 1 "A" (Int 0)] (rows out).
Proof.
  destruct (@join_filters_and_sorts Examples.stable_builtins Examples.one_live
              (Examples.songs [Examples.song 1 2 "B" (Int 0);
                               Examples.song 1 1 "A" (Int 0)])
              Examples.first_live
              insertion_sort_contract eq_refl eq_refl eq_refl eq_refl)
    as [[out [Hrun [_ [Hperm _]]]] _].
  exists out. split; [exact Hrun | exact Hperm].
Defined.

(** The two examples of the link: a base link with a query, and one
    without. *)
Lemma deep_link_appends_offset_witness :
  @LiveView.youtube_link Examples.stable_builtins (Str Examples.url) (Int 90)
  = inl (Str (lit "https://x.com/watch?v=1&t=90")).
Proof.
  exact (proj1 (@deep_link_appends_offset Examples.stable_builtins Examples.url
                  (Int 90) 90
                  {| index := Examples.song_columns;
                     values := Examples.song 1 1 "A" (Int 90) |}
                  eq_refl eq_refl)).
Defined.

Example deep_link_without_query :
  @LiveView.youtube_link Examples.stable_builtins (Str (lit "https://x.com/watch")) (Int 90)
  = inl (Str (lit "https://x.com/watch?t=90")).
Proof. reflexivity. Qed.

Lemma missing_join_key_halts_witness :
  @LiveView.render Examples.stable_builtins Examples.one_live
    {| columns := [LiveView.col_order; LiveView.col_song_name];
       rows := [[Int 1; Str (lit "A")]] |} 0
  = ([LiveView.Title; LiveView.SidebarHeader; LiveView.Selectbox;
      LiveView.StWarning LiveView.MissingJoinKey], inr Stopped).
Proof.
  refine (proj2 (proj2 (proj2
    (@missing_join_key_halts Examples.stable_builtins Examples.one_live
       {| columns := [LiveView.col_order; LiveView.col_song_name];
          rows := [[Int 1; Str (lit "A")]] |}
       Examples.first_live 0%nat (or_intror eq_refl)))) eq_refl eq_refl _).
  simpl. lia.
Defined.

(** C9 at an offset that is an infinite float: [int] raises
    [OverflowError], which the handler for [ValueError] lets through; the
    run ends there and the song line is not shown. *)
Theorem infinite_offset_aborts_page :
  (forall (H : Builtins) (base : str) (negative : bool),
      LiveView.youtube_link (Str base) (Inf negative) = inr OverflowError)
  /\ @LiveView.app Examples.stable_builtins
       (Some (Examples.one_live,
              Examples.songs [Examples.song 1 1 "A" (Inf false)])) 0
     = ([LiveView.Title; LiveView.SidebarHeader; LiveView.Selectbox;
         LiveView.Subheader], inr (Raised OverflowError)).
Proof. split; [intros H base negative|]; reflexivity. Qed.

(* ================================================================== *)
(** * VSOP-LIVEVIEW/streamlit_app.py: the column names *)
(* ================================================================== *)

Lemma has_label_stripped (header : str) (labels : list str) :
  In header labels -> has_label (strip header) (List.map strip labels) = true.
Proof. intros Hin. apply has_label_In. now apply in_map. Qed.

Lemma position_stripped (header : str) (labels : list str) :
  NoDup (List.map strip labels) ->
  In header labels ->
  position (strip header) (List.map strip labels) = position header labels.
Proof.
  induction labels as [|l labels IH]; simpl; intros Hnd Hin; [contradiction|].
  inversion Hnd as [|? ? Hnotin Hnd']; subst.
  destruct (str_eqb header l) eqn:E.
  - apply str_eqb_eq in E. subst l. now rewrite str_eqb_refl.
  - destruct Hin as [->|Hin]; [now rewrite str_eqb_refl in E|].
    destruct (str_eqb (strip header) (strip l)) eqn:E'.
    + apply str_eqb_eq in E'. exfalso. apply Hnotin. rewrite <- E'.
      now apply in_map.
    + now rewrite IH.
Qed.

Section ColumnNames.

Import LiveView.
Context `{Builtins}.

(** C10.  [load_data] hands over both frames with every column name
    stripped and the rows untouched, and the page is rendered from those
    frames only; so every name the script looks up is a stripped one, a
    header with surrounding whitespace is found under its stripped name,
    its cells are read under that name, and a padded 'ライブID' in both
    sheets lets the join go through. *)
Theorem column_names_are_stripped (raw_lives raw_songs : DataFrame) (choice : nat) :
  let df_lives := strip_columns raw_lives in
  let df_songs := strip_columns raw_songs in
  load_data (Some (raw_lives, raw_songs)) = ret (Some (df_lives, df_songs))
  /\ app (Some (raw_lives, raw_songs)) choice = render df_lives df_songs choice
  /\ columns df_lives = List.map strip (columns raw_lives)
  /\ columns df_songs = List.map strip (columns raw_songs)
  /\ rows df_lives = rows raw_lives
  /\ rows df_songs = rows raw_songs
  /\ (forall l, In l (columns df_lives ++ columns df_songs) -> trimmed l)
  /\ (forall raw header, raw = raw_lives \/ raw = raw_songs ->
        In header (columns raw) ->
        has_label (strip header) (columns (strip_columns raw)) = true
        /\ (NoDup (columns (strip_columns raw)) ->
            forall r, at_label (columns (strip_columns raw)) r (strip header)
                      = at_label (columns raw) r header))
  /\ (forall h1 h2 selected_live_row,
        In h1 (columns raw_lives) -> strip h1 = col_live_id ->
        In h2 (columns raw_songs) -> strip h2 = col_live_id ->
        join df_lives df_songs selected_live_row =
          ret (where_eq df_songs col_live_id (item selected_live_row col_live_id))).
Proof.
  intros df_lives df_songs.
  split; [reflexivity|].
  split. { unfold app, load_data. cbv zeta. rewrite bind_ret. reflexivity. }
  do 4 (split; [reflexivity|]).
  split.
  { intros l Hin. apply in_app_or in Hin. simpl in Hin.
    destruct Hin as [Hin|Hin]; apply in_map_iff in Hin;
      destruct Hin as [h [<- _]]; apply strip_trimmed. }
  split.
  { intros raw header _ Hin. split; [now apply has_label_stripped|].
    simpl. intros Hnd r. unfold at_label. now rewrite position_stripped. }
  intros h1 h2 row Hin1 E1 Hin2 E2. apply join_found; simpl; rewrite has_label_In.
  - rewrite <- E1. now apply in_map.
  - rewrite <- E2. now apply in_map.
Qed.

End ColumnNames.

(** A key column whose header is padded in both sheets: the page shows
    the song of the selected live. *)
Example padded_headers_are_found :
  let pad (s : str) := ([32; 12288] ++ s ++ [9; 32])%N in
  @LiveView.app Examples.stable_builtins
    (Some ({| columns := List.map pad (columns Examples.one_live);
              rows := rows Examples.one_live |},
           {| columns := List.map pad Examples.song_columns;
              rows := [Examples.song 1 1 "A" (Int 90)] |})) 0
  = ([LiveView.Title; LiveView.SidebarHeader; LiveView.Selectbox;
      LiveView.Subheader;
      LiveView.StWrite (lit "A V https://x.com/watch?v=1&t=90")], inl tt).
Proof. reflexivity. Qed.

(* ================================================================== *)
(** * weather_dashboard.py: properties *)
(* ================================================================== *)

Section Reduction.

(** [pick] with "better" meaning "not below": the fold returns a present
    reading that none of the others is above, and a missing one only when
    every reading is missing. *)
Variable leb : Q -> Q -> bool.
Hypothesis leb_total : forall a b, leb a b = true \/ leb b a = true.
Hypothesis leb_trans : forall a b c, leb a b = true -> leb b c = true -> leb a c = true.

Lemma fold_pick_extreme (xs : list WeatherDashboard.reading) (acc : WeatherDashboard.reading) :
  match fold_left (WeatherDashboard.pick (fun b a => negb (leb b a))) xs acc with
  | None => acc = None /\ Forall (fun x => x = None) xs
  | Some m =>
      (acc = Some m \/ In (Some m) xs)
      /\ (forall v, acc = Some v \/ In (Some v) xs -> leb v m = true)
  end.
Proof.
  set (step := WeatherDashboard.pick (fun b a => negb (leb b a))).
  revert acc. induction xs as [|x xs IH]; intros acc; simpl.
  - destruct acc as [a|]; [|split; [reflexivity | constructor]].
    split; [now left|]. intros v [E|[]]. injection E as ->.
    destruct (leb_total v v); assumption.
  - specialize (IH (step acc x)).
    destruct (fold_left step xs (step acc x)) as [m|].
    + destruct IH as [Hin Hmax]. split.
      * destruct Hin as [E|Hin]; [|now right; right].
        destruct acc as [a|], x as [b|]; simpl in E;
          try (destruct (leb b a)); simpl in E; auto.
      * intros v Hv. destruct Hv as [E|[E|Hv]]; [| |apply Hmax; now right].
        -- subst acc. destruct x as [b|]; simpl in Hmax.
           ++ destruct (leb b v) eqn:Ebv; simpl in Hmax.
              ** apply Hmax. now left.
              ** apply leb_trans with b; [|apply Hmax; now left].
                 destruct (leb_total b v); congruence.
           ++ apply Hmax. now left.
        -- subst x. destruct acc as [a|]; simpl in Hmax.
           ++ destruct (leb v a) eqn:Eva; simpl in Hmax.
              ** apply leb_trans with a; [assumption | apply Hmax; now left].
              ** apply Hmax. now left.
           ++ apply Hmax. now left.
    + destruct IH as [E Hall].
      destruct acc as [a|], x as [b|]; simpl in E;
        try (destruct (leb b a)); simpl in E; try discriminate.
      split; [reflexivity | now constructor].
Qed.

(** The fold of [pick] from an accumulator is the naive scan of the
    readings, set against the accumulator. *)
Lemma fold_pick_naive (xs : list WeatherDashboard.reading) (acc : WeatherDashboard.reading) :
  fold_left (WeatherDashboard.pick (fun b a => negb (leb b a))) xs acc
  = match acc, WeatherDashboard.Spec.naive_extreme (fun a b => leb b a) xs with
    | None, r => r
    | Some a, None => Some a
    | Some a, Some b => if leb b a then Some a else Some b
    end.
Proof.
  revert acc. induction xs as [|x xs IH]; intros acc; simpl.
  - destruct acc; reflexivity.
  - rewrite IH.
    destruct x as [a|], acc as [c|]; simpl;
      destruct (WeatherDashboard.Spec.naive_extreme (fun a b => leb b a) xs) as [b|];
      simpl; try reflexivity.
    + destruct (leb a c) eqn:Eac, (leb b a) eqn:Eba, (leb b c) eqn:Ebc; simpl;
        rewrite ?Eac, ?Eba, ?Ebc; try reflexivity; exfalso.
      * rewrite (leb_trans b a c Eba Eac) in Ebc. discriminate.
      * destruct (leb_total a b) as [Eab|Eab]; [|congruence].
        rewrite (leb_trans a b c Eab Ebc) in Eac. discriminate.
    + destruct (leb a c); reflexivity.
Qed.

End Reduction.

(** The summary of the code is the naive scan. *)
Lemma summarize_is_the_scan (entries : list WeatherDashboard.daily_row) :
  WeatherDashboard.summarize entries = WeatherDashboard.Spec.scan entries.
Proof.
  unfold WeatherDashboard.summarize, WeatherDashboard.Spec.scan,
    WeatherDashboard.series_max, WeatherDashboard.series_min.
  rewrite !(fold_pick_naive Qle_bool (fun a b => ext_leb_total (Fin a) (Fin b))
              (fun a b c => ext_leb_trans (Fin a) (Fin b) (Fin c))).
  rewrite (fold_pick_naive (fun a b => Qle_bool b a)
             (fun a b => ext_leb_total (Fin b) (Fin a))
             (fun a b c Hab Hbc => ext_leb_trans (Fin c) (Fin b) (Fin a) Hbc Hab)).
  reflexivity.
Qed.

Lemma Qle_bool_total (a b : Q) : Qle_bool a b = true \/ Qle_bool b a = true.
Proof. exact (ext_leb_total (Fin a) (Fin b)). Qed.

Lemma Qle_bool_trans (a b c : Q) :
  Qle_bool a b = true -> Qle_bool b c = true -> Qle_bool a c = true.
Proof. exact (ext_leb_trans (Fin a) (Fin b) (Fin c)). Qed.

(** [Series.max()]: the greatest of the present readings. *)
Lemma series_max_spec (xs : list WeatherDashboard.reading) :
  match WeatherDashboard.series_max xs with
  | None => Forall (fun x => x = None) xs
  | Some m => In (Some m) xs /\ (forall v, In (Some v) xs -> (v <= m)%Q)
  end.
Proof.
  unfold WeatherDashboard.series_max.
  pose proof (fold_pick_extreme Qle_bool Qle_bool_total Qle_bool_trans xs None) as Hf.
  cbv zeta in Hf.
  destruct (fold_left (WeatherDashboard.pick _) xs None) as [m|].
  - destruct Hf as [[E|Hin] Hmax]; [discriminate|]. split; [assumption|].
    intros v Hv. apply Qle_bool_iff. apply Hmax. now right.
  - apply Hf.
Qed.

(** [Series.min()]: the least of the present readings. *)
Lemma series_min_spec (xs : list WeatherDashboard.reading) :
  match WeatherDashboard.series_min xs with
  | None => Forall (fun x => x = None) xs
  | Some m => In (Some m) xs /\ (forall v, In (Some v) xs -> (m <= v)%Q)
  end.
Proof.
  unfold WeatherDashboard.series_min.
  pose proof (fold_pick_extreme (fun a b => Qle_bool b a)
                (fun a b => Qle_bool_total b a)
                (fun a b c Hab Hbc => Qle_bool_trans c b a Hbc Hab) xs None) as Hf.
  cbv zeta in Hf.
  destruct (fold_left (WeatherDashboard.pick _) xs None) as [m|].
  - destruct Hf as [[E|Hin] Hmin]; [discriminate|]. split; [assumption|].
    intros v Hv. apply Qle_bool_iff. apply Hmin. now right.
  - apply Hf.
Qed.

Lemma series_max_none_iff (xs : list WeatherDashboard.reading) :
  WeatherDashboard.series_max xs = None <-> Forall (fun x => x = None) xs.
Proof.
  pose proof (series_max_spec xs) as Hs. split.
  - intros E. now rewrite E in Hs.
  - intros Hall. destruct (WeatherDashboard.series_max xs) as [m|]; [|reflexivity].
    destruct Hs as [Hin _]. rewrite Forall_forall in Hall.
    now apply Hall in Hin.
Qed.

Lemma series_min_none_iff (xs : list WeatherDashboard.reading) :
  WeatherDashboard.series_min xs = None <-> Forall (fun x => x = None) xs.
Proof.
  pose proof (series_min_spec xs) as Hs. split.
  - intros E. now rewrite E in Hs.
  - intros Hall. destruct (WeatherDashboard.series_min xs) as [m|]; [|reflexivity].
    destruct Hs as [Hin _]. rewrite Forall_forall in Hall.
    now apply Hall in Hin.
Qed.

Lemma filter_all {A} (f : A -> bool) (l : list A) :
  forallb f l = true -> filter f l = l.
Proof.
  induction l as [|x l IH]; simpl; [reflexivity|].
  intros E. apply andb_true_iff in E. destruct E as [Ex El].
  rewrite Ex. f_equal. now apply IH.
Qed.

Section WeatherFacts.

Import WeatherDashboard.
Variable geodesic_kilometers : Q * Q -> Q * Q -> Q + exn.

Local Open Scope script_scope.

(** The page for a window that passes the check, two cities that were
    found and a forecast that was fetched. *)
Lemma app_shows_summary (start_date end_date : date) (from_coord to_coord : Location)
    (distance : Q) (df_daily : list daily_row) :
  end_date - start_date <= 14 ->
  geodesic_kilometers (lat from_coord, lon from_coord) (lat to_coord, lon to_coord)
    = inl distance ->
  app geodesic_kilometers [start_date; end_date]
      (Some from_coord) (Some to_coord) (Some df_daily)
  = ([SidebarSource; RouteHeader from_coord to_coord distance; Subheader;
      Metric MaxTemperature (max_t (summarize df_daily));
      Metric MinTemperature (min_t (summarize df_daily));
      Metric MaxWindspeed (max_w (summarize df_daily));
      DataStatusNormal; TemperatureChart; WindChart; Footer], inl tt).
Proof.
  intros Hlen Hd. unfold app, validate, calculate_distance.
  destruct (Z.gtb_spec (end_date - start_date) 14) as [Hgt|_]; [lia|].
  rewrite bind_ret, Hd. reflexivity.
Qed.

(** C1, as the code has it.  For a window that holds every entry of the
    series, or none of them, the page shows the three statistics the
    specification asks for: the naive scan over the entries of the window,
    or over the whole series when no entry lies in the window.  Each
    statistic is missing exactly when every reading of its column is
    missing, and is otherwise a reading of the column that no other reading
    exceeds (for the minimum: undercuts).  No warning is shown, not even
    when no entry lies in the window, and the data status reads normal. *)
Theorem summary_agrees_when_window_holds_all_or_none (start_date end_date : date)
    (from_coord to_coord : Location) (distance : Q) (series : list daily_row) :
  end_date - start_date <= 14 ->
  geodesic_kilometers (lat from_coord, lon from_coord) (lat to_coord, lon to_coord)
    = inl distance ->
  forallb (Spec.in_window start_date end_date) series = true
  \/ Spec.windowed start_date end_date series = [] ->
  let run := app geodesic_kilometers [start_date; end_date]
                 (Some from_coord) (Some to_coord) (Some series) in
  let asked := fst (Spec.summarize_window series start_date end_date) in
  filter is_metric (shown run)
    = [Metric MaxTemperature (max_t asked); Metric MinTemperature (min_t asked);
       Metric MaxWindspeed (max_w asked)]
  /\ In DataStatusNormal (shown run)
  /\ filter is_warning (shown run) = []
  /\ ending run = None
  /\ summarize series = asked
  /\ (max_t asked = None <-> forall r, In r series -> temperature_2m_max r = None)
  /\ (forall m, max_t asked = Some m ->
        In (Some m) (List.map temperature_2m_max series)
        /\ forall v, In (Some v) (List.map temperature_2m_max series) -> (v <= m)%Q)
  /\ (min_t asked = None <-> forall r, In r series -> temperature_2m_min r = None)
  /\ (forall m, min_t asked = Some m ->
        In (Some m) (List.map temperature_2m_min series)
        /\ forall v, In (Some v) (List.map temperature_2m_min series) -> (m <= v)%Q)
  /\ (max_w asked = None <-> forall r, In r series -> windspeed_10m_max r = None)
  /\ (forall m, max_w asked = Some m ->
        In (Some m) (List.map windspeed_10m_max series)
        /\ forall v, In (Some v) (List.map windspeed_10m_max series) -> (v <= m)%Q).
Proof.
  intros Hlen Hd Hwin run asked.
  assert (Hasked : asked = summarize series).
  { subst asked. unfold Spec.summarize_window. destruct Hwin as [Hall|Hnone].
    - unfold Spec.windowed. rewrite (filter_all _ _ Hall).
      destruct series; simpl; now rewrite summarize_is_the_scan.
    - rewrite Hnone. simpl. now rewrite summarize_is_the_scan. }
  subst run. rewrite (app_shows_summary _ _ _ _ _ _ Hlen Hd), Hasked.
  assert (Hmap : forall (f : daily_row -> reading),
            Forall (fun x => x = None) (List.map f series)
            <-> forall r, In r series -> f r = None).
  { intros f. rewrite Forall_forall. split.
    - intros Hall r Hr. apply Hall. now apply in_map.
    - intros Hall x Hx. apply in_map_iff in Hx. destruct Hx as [r [<- Hr]].
      now apply Hall. }
  split; [reflexivity|].
  split; [simpl; tauto|].
  split; [reflexivity|].
  split; [reflexivity|].
  split; [reflexivity|].
  simpl max_t. simpl min_t. simpl max_w.
  split; [rewrite series_max_none_iff; apply Hmap|].
  split.
  { intros m Hm.
    pose proof (series_max_spec (List.map temperature_2m_max series)) as Hs.
    now rewrite Hm in Hs. }
  split; [rewrite series_min_none_iff; apply Hmap|].
  split.
  { intros m Hm.
    pose proof (series_min_spec (List.map temperature_2m_min series)) as Hs.
    now rewrite Hm in Hs. }
  split; [rewrite series_max_none_iff; apply Hmap|].
  intros m Hm.
  pose proof (series_max_spec (List.map windspeed_10m_max series)) as Hs.
  now rewrite Hm in Hs.
Qed.

(** C8, as the code has it.  The check of the window turns away a window
    whose end lies more than 14 days after its start, with an error and a
    stop, so the summary is only ever shown for a pair of dates at most 14
    days apart; a window whose end lies before its start passes the check
    like any other short window. *)
Theorem only_long_windows_are_turned_away (date_range : list date)
    (from_coord to_coord : option Location) (weather_daily : option (list daily_row)) :
  let run := app geodesic_kilometers date_range from_coord to_coord weather_daily in
  (forall start_date end_date,
      date_range = [start_date; end_date] -> end_date - start_date > 14 ->
      run = ([StError RangeTooLong], inr Stopped))
  /\ (forall start_date end_date,
      date_range = [start_date; end_date] -> end_date < start_date ->
      validate date_range = ret (start_date, end_date))
  /\ (filter is_metric (shown run) <> [] ->
      exists start_date end_date,
        date_range = [start_date; end_date] /\ end_date - start_date <= 14).
Proof.
  intros run. subst run. split; [|split].
  - intros s e -> Hgt. unfold app, validate.
    destruct (Z.gtb_spec (e - s) 14) as [_|Hle]; [reflexivity | lia].
  - intros s e -> Hlt. unfold validate.
    destruct (Z.gtb_spec (e - s) 14) as [Hgt|_]; [lia | reflexivity].
  - unfold app, validate.
    destruct date_range as [|s [|e [|x rest]]]; try (intros Hm; now contradiction Hm).
    destruct (Z.gtb_spec (e - s) 14) as [Hgt|Hle].
    + intros Hm. now contradiction Hm.
    + intros _. exists s, e. split; [reflexivity | exact Hle].
Qed.

End WeatherFacts.

Lemma summary_agrees_when_window_holds_all_or_none_witness :
  filter WeatherDashboard.is_metric
    (shown (WeatherDashboard.app Examples.about_400_km [5; 6]
              (Some Examples.tokyo) (Some Examples.osaka) (Some Examples.two_days)))
  = [WeatherDashboard.Metric WeatherDashboard.MaxTemperature (Some (20 # 1));
     WeatherDashboard.Metric WeatherDashboard.MinTemperature (Some (0 # 1));
     WeatherDashboard.Metric WeatherDashboard.MaxWindspeed (Some (9 # 1))]
  /\ filter WeatherDashboard.is_warning
       (shown (WeatherDashboard.app Examples.about_400_km [5; 6]
                 (Some Examples.tokyo) (Some Examples.osaka) (Some Examples.two_days)))
     = [].
Proof.
  destruct (summary_agrees_when_window_holds_all_or_none Examples.about_400_km 5 6
              Examples.tokyo Examples.osaka (400 # 1) Examples.two_days
              ltac:(lia) eq_refl (or_intror eq_refl))
    as [Hmetrics [_ [Hwarn _]]].
  split; [exact Hmetrics | exact Hwarn].
Defined.

(** C1, as it is worded, fails.  In the window from day 1 to day 1 lies
    the first of the two days only, and the page shows the statistics of
    both; in the window from day 5 to day 6 lies no entry, and the page
    shows no warning. *)
Lemma summary_differs_from_window_scan :
  1 <= 1
  /\ WeatherDashboard.Spec.windowed 1 1 Examples.two_days = [Examples.day 1 10 0 5]
  /\ filter WeatherDashboard.is_metric
       (shown (WeatherDashboard.app Examples.about_400_km [1; 1]
                 (Some Examples.tokyo) (Some Examples.osaka) (Some Examples.two_days)))
     <> (let s := fst (WeatherDashboard.Spec.summarize_window Examples.two_days 1 1) in
         [WeatherDashboard.Metric WeatherDashboard.MaxTemperature (WeatherDashboard.max_t s);
          WeatherDashboard.Metric WeatherDashboard.MinTemperature (WeatherDashboard.min_t s);
          WeatherDashboard.Metric WeatherDashboard.MaxWindspeed (WeatherDashboard.max_w s)])
  /\ 5 <= 6
  /\ WeatherDashboard.Spec.summarize_window Examples.two_days 5 6
     = (WeatherDashboard.summarize Examples.two_days, true)
  /\ filter WeatherDashboard.is_warning
       (shown (WeatherDashboard.app Examples.about_400_km [5; 6]
                 (Some Examples.tokyo) (Some Examples.osaka) (Some Examples.two_days)))
     = [].
Proof.
  split; [lia|]. split; [reflexivity|].
  split; [vm_compute; discriminate|].
  split; [lia|]. split; reflexivity.
Qed.

(** C8, as it is worded, fails: for the window from day 10 back to day 5
    the check passes and the page is shown to its end, summary included. *)
Lemma reversed_window_is_summarized :
  5 < 10
  /\ WeatherDashboard.validate [10; 5] = ret (10, 5)
  /\ WeatherDashboard.app Examples.about_400_km [10; 5]
       (Some Examples.tokyo) (Some Examples.osaka) (Some Examples.two_days)
     = ([WeatherDashboard.SidebarSource;
         WeatherDashboard.RouteHeader Examples.tokyo Examples.osaka (400 # 1);
         WeatherDashboard.Subheader;
         WeatherDashboard.Metric WeatherDashboard.MaxTemperature (Some (20 # 1));
         WeatherDashboard.Metric WeatherDashboard.MinTemperature (Some (0 # 1));
         WeatherDashboard.Metric WeatherDashboard.MaxWindspeed (Some (9 # 1));
         WeatherDashboard.DataStatusNormal;
         WeatherDashboard.TemperatureChart; WeatherDashboard.WindChart;
         WeatherDashboard.Footer], inl tt).
Proof. split; [lia|]. split; reflexivity. Qed.

Example long_window_is_turned_away :
  WeatherDashboard.app Examples.about_400_km [1; 16]
    (Some Examples.tokyo) (Some Examples.osaka) (Some Examples.two_days)
  = ([WeatherDashboard.StError WeatherDashboard.RangeTooLong], inr Stopped).
Proof. reflexivity. Qed.

Example fifteen_day_window_passes :
  WeatherDashboard.validate [1; 15] = ret (1, 15).
Proof. reflexivity. Qed.

(* ================================================================== *)
(** * app.py: properties *)
(* ================================================================== *)

Section NewsFacts.

Import NewsApp.
Variable datetime : Type.
Variable strptime : str -> option datetime.
Variable strftime : datetime -> option str.

Local Open Scope script_scope.

Local Abbreviation format_date := (format_date datetime strptime strftime).
Local Abbreviation show_entry := (show_entry datetime strptime strftime).
Local Abbreviation card_of := (card_of datetime strptime strftime).
Local Abbreviation app := (app datetime strptime strftime).

(** A date that parses and prints is shown as printed. *)
Lemma format_date_parsed (e : entry) (raw formatted : str) (dt : datetime) :
  published e = Some raw -> strptime raw = Some dt -> strftime dt = Some formatted ->
  format_date e = inl formatted.
Proof. intros Hp Hs Hf. unfold NewsApp.format_date. now rewrite Hp, Hs, Hf. Qed.

(** A date that does not parse is shown as received. *)
Lemma format_date_unparsed (e : entry) (raw : str) :
  published e = Some raw -> strptime raw = None -> format_date e = inl raw.
Proof. intros Hp Hs. unfold NewsApp.format_date. now rewrite Hp, Hs. Qed.

Lemma show_entry_complete (e : entry) :
  complete e = true -> show_entry e = emit (card_of e).
Proof.
  unfold complete, NewsApp.show_entry, NewsApp.card_of, NewsApp.format_date.
  destruct (title e) as [t|], (published e) as [p|], (summary e) as [s|],
           (link e) as [l|]; try discriminate.
  intros _. destruct (match strptime p with Some dt => strftime dt | None => None end);
    reflexivity.
Qed.

Lemma for_each_complete (es : list entry) :
  forallb complete es = true ->
  for_each es show_entry = (List.map card_of es, inl tt).
Proof.
  induction es as [|e es IH]; simpl; [reflexivity|].
  intros E. apply andb_true_iff in E. destruct E as [He Hes].
  rewrite (show_entry_complete e He), bind_emit, (IH Hes). reflexivity.
Qed.

(** The page for a query and a feed whose first 15 entries carry all
    their fields: one card per entry, in the order of the feed. *)
Lemma app_shows_cards (search_query : str) (entries : list entry) :
  search_query <> [] -> entries <> [] ->
  forallb complete (firstn 15 entries) = true ->
  app search_query entries
  = (Header :: List.map card_of (firstn 15 entries) ++ [Footer], inl tt).
Proof.
  intros Hq He Hc. unfold NewsApp.app.
  destruct search_query as [|c q]; [contradiction|].
  destruct entries as [|e es]; [contradiction|].
  rewrite bind_emit. rewrite (for_each_complete _ Hc). reflexivity.
Qed.

(** C7.  An entry whose published date does not parse is shown with the
    date string as it was received: formatting the date does not fail, and
    on a page whose first 15 entries carry all their fields the run reaches
    its end and the card of the entry shows that string. *)
Theorem unparseable_date_is_kept (search_query : str) (entries : list entry)
    (e : entry) (raw : str) :
  published e = Some raw ->
  strptime raw = None ->
  search_query <> [] ->
  In e (firstn 15 entries) ->
  forallb complete (firstn 15 entries) = true ->
  format_date e = inl raw
  /\ ending (app search_query entries) = None
  /\ In (Card (text (title e)) raw (text (summary e)) (text (link e)))
        (shown (app search_query entries)).
Proof.
  intros Hp Hs Hq Hin Hc.
  assert (Hf : format_date e = inl raw) by now apply format_date_unparsed.
  split; [exact Hf|].
  assert (He : entries <> []).
  { intros ->. now rewrite firstn_nil in Hin. }
  rewrite (app_shows_cards _ _ Hq He Hc). split; [reflexivity|].
  simpl. right. apply in_or_app. left.
  apply in_map_iff. exists e. split; [|exact Hin].
  unfold NewsApp.card_of. now rewrite Hf.
Qed.

End NewsFacts.

Lemma unparseable_date_is_kept_witness :
  NewsApp.app unit Examples.parse_one Examples.print_one (lit "AI")
    [Examples.news "Mon, 01 Jan 2024 10:00:00 GMT"; Examples.news "yesterday"]
  = ([NewsApp.Header;
      NewsApp.Card (lit "T") (lit "2024-01-01 10:00") (lit "S") (lit "L");
      NewsApp.Card (lit "T") (lit "yesterday") (lit "S") (lit "L");
      NewsApp.Footer], inl tt)
  /\ In (NewsApp.Card (lit "T") (lit "yesterday") (lit "S") (lit "L"))
        (shown (NewsApp.app unit Examples.parse_one Examples.print_one (lit "AI")
                  [Examples.news "Mon, 01 Jan 2024 10:00:00 GMT";
                   Examples.news "yesterday"])).
Proof.
  split; [reflexivity|].
  refine (proj2 (proj2
    (unparseable_date_is_kept unit Examples.parse_one Examples.print_one (lit "AI")
       [Examples.news "Mon, 01 Jan 2024 10:00:00 GMT"; Examples.news "yesterday"]
       (Examples.news "yesterday") (lit "yesterday")
       eq_refl eq_refl _ _ eq_refl))).
  - discriminate.
  - simpl. right. left. reflexivity.
Defined.

(* ================================================================== *)
(** * VSOP-LIVEVIEW/streamlit_app.py: the song lines *)
(* ================================================================== *)

Section SongLines.

Import LiveView.
Context `{Builtins}.

Local Open Scope script_scope.

Lemma youtube_link_inr_iff (video_link_base starttime : cell) (e : exn) :
  youtube_link video_link_base starttime = inr e
  <-> e = OverflowError /\ notna video_link_base = true
      /\ exists negative, starttime = Inf negative.
Proof.
  unfold youtube_link. split.
  - destruct (notna video_link_base); simpl; [|discriminate].
    destruct starttime as [|z|q|neg|s]; simpl; try discriminate.
    + intros E. injection E as <-. split; [reflexivity|]. split; [reflexivity|].
      now exists neg.
    + destruct (int_of_str s); discriminate.
  - intros [-> [Hb [neg ->]]]. rewrite Hb. reflexivity.
Qed.

(** The only way the link of a song can fail: the live has a link and the
    offset of the song is an infinite float, for which [int] raises
    [OverflowError]; every other pair of cells gives a link. *)
Theorem link_fails_only_on_infinite_offset (video_link_base starttime : cell) :
  (forall e, youtube_link video_link_base starttime = inr e
             <-> e = OverflowError /\ notna video_link_base = true
                 /\ exists negative, starttime = Inf negative)
  /\ (notna video_link_base = false \/ (forall negative, starttime <> Inf negative)
      -> exists link, youtube_link video_link_base starttime = inl link).
Proof.
  split; [intros e; apply youtube_link_inr_iff|].
  intros Hok. destruct (youtube_link video_link_base starttime) as [l|e] eqn:E.
  - now exists l.
  - apply youtube_link_inr_iff in E. destruct E as [_ [Hb [neg Hs]]].
    destruct Hok as [Hn|Hn]; [congruence | now elim (Hn neg)].
Qed.

Lemma show_song_finite (labels : list str) (video_link_base : cell) (r : list cell) :
  notna video_link_base && infinite_offset labels r = false ->
  show_song video_link_base {| index := labels; values := r |}
  = emit (StWrite (song_line labels video_link_base r)).
Proof.
  intros Hfin. unfold show_song, song_line, item. simpl.
  destruct (youtube_link video_link_base (at_label labels r col_starttime))
    as [l|e] eqn:E; [reflexivity|].
  apply youtube_link_inr_iff in E.
  destruct E as [_ [Hb [neg Hs]]]. unfold infinite_offset in Hfin.
  rewrite Hb, Hs in Hfin. discriminate.
Qed.

Lemma show_song_infinite (labels : list str) (video_link_base : cell) (r : list cell) :
  notna video_link_base && infinite_offset labels r = true ->
  show_song video_link_base {| index := labels; values := r |} = raise OverflowError.
Proof.
  intros Hinf. apply andb_true_iff in Hinf. destruct Hinf as [Hb Hi].
  unfold show_song, item. simpl. unfold infinite_offset in Hi.
  destruct (at_label labels r col_starttime) as [| | |neg|] eqn:Es; try discriminate.
  assert (E : youtube_link video_link_base (Inf neg) = inr OverflowError).
  { apply youtube_link_inr_iff. repeat split; [assumption | now exists neg]. }
  now rewrite E.
Qed.

Lemma show_rows_finite (labels : list str) (video_link_base : cell) (rs : list (list cell)) :
  forallb (fun r => negb (notna video_link_base && infinite_offset labels r)) rs = true ->
  for_each (List.map (fun r => {| index := labels; values := r |}) rs)
           (show_song video_link_base)
  = (List.map (fun r => StWrite (song_line labels video_link_base r)) rs, inl tt).
Proof.
  induction rs as [|r rs IH]; simpl; [reflexivity|].
  intros E. apply andb_true_iff in E. destruct E as [Hr Hrs].
  apply negb_true_iff in Hr.
  rewrite (show_song_finite _ _ _ Hr), bind_emit, (IH Hrs). reflexivity.
Qed.

Lemma required_cols_present (songs_to_display : DataFrame) :
  has_label col_song_name (columns songs_to_display) = true ->
  has_label col_vocal (columns songs_to_display) = true ->
  has_label col_starttime (columns songs_to_display) = true ->
  filter (fun col => negb (has_label col (columns songs_to_display))) required_cols = [].
Proof. intros H1 H2 H3. unfold required_cols. simpl. now rewrite H1, H2, H3. Qed.

(** With the three display columns present, and no infinite offset among
    the songs of a live that has a link, the page shows one line per song
    row, in the order of the rows, and the run goes on. *)
Theorem one_line_per_song (selected_live_row : Series) (songs_to_display : DataFrame) :
  has_label col_song_name (columns songs_to_display) = true ->
  has_label col_vocal (columns songs_to_display) = true ->
  has_label col_starttime (columns songs_to_display) = true ->
  let video_link_base := get selected_live_row col_video_link (Str []) in
  forallb (fun r => negb (notna video_link_base
                          && infinite_offset (columns songs_to_display) r))
          (rows songs_to_display) = true ->
  show_songs selected_live_row songs_to_display
  = (List.map (fun r => StWrite (song_line (columns songs_to_display) video_link_base r))
              (rows songs_to_display), inl tt).
Proof.
  intros H1 H2 H3 base Hfin. unfold show_songs.
  rewrite (required_cols_present _ H1 H2 H3). unfold iterrows.
  now apply show_rows_finite.
Qed.

(** An infinite offset cuts the page: the songs before the first such row
    are shown, that row and the ones after it are not, and the run ends
    with [OverflowError]. *)
Theorem infinite_offset_cuts_the_page (selected_live_row : Series)
    (songs_to_display : DataFrame) (before after : list (list cell)) (r : list cell) :
  has_label col_song_name (columns songs_to_display) = true ->
  has_label col_vocal (columns songs_to_display) = true ->
  has_label col_starttime (columns songs_to_display) = true ->
  let video_link_base := get selected_live_row col_video_link (Str []) in
  notna video_link_base = true ->
  rows songs_to_display = before ++ r :: after ->
  forallb (fun r => negb (infinite_offset (columns songs_to_display) r)) before = true ->
  infinite_offset (columns songs_to_display) r = true ->
  show_songs selected_live_row songs_to_display
  = (List.map (fun r => StWrite (song_line (columns songs_to_display) video_link_base r))
              before, inr (Raised OverflowError)).
Proof.
  intros H1 H2 H3 base Hb Hrows Hbefore Hr. unfold show_songs.
  rewrite (required_cols_present _ H1 H2 H3). unfold iterrows. fold base.
  rewrite Hrows. clear Hrows.
  induction before as [|b before IH]; simpl.
  - rewrite show_song_infinite; [reflexivity|]. now rewrite Hb, Hr.
  - simpl in Hbefore. apply andb_true_iff in Hbefore. destruct Hbefore as [Hfin Hrest].
    apply negb_true_iff in Hfin.
    rewrite show_song_finite; [|now rewrite Hfin, andb_false_r].
    rewrite bind_emit, (IH Hrest). reflexivity.
Qed.

(** When display columns are missing from the songs, the page names
    exactly the missing ones among '楽曲名', 'ボーカル' and 'STARTTIME', in
    that order, shows no song, and the run goes on. *)
Theorem missing_song_columns_are_named (selected_live_row : Series)
    (songs_to_display : DataFrame) :
  let missing_cols :=
    filter (fun col => negb (has_label col (columns songs_to_display))) required_cols in
  missing_cols <> [] ->
  show_songs selected_live_row songs_to_display
    = ([StError (MissingSongColumns missing_cols)], inl tt)
  /\ (forall col, In col missing_cols
                  <-> In col [col_song_name; col_vocal; col_starttime]
                      /\ has_label col (columns songs_to_display) = false).
Proof.
  intros missing_cols Hne. split.
  - unfold show_songs. fold missing_cols.
    destruct missing_cols; [contradiction | reflexivity].
  - intros col. subst missing_cols. rewrite filter_In, negb_true_iff. reflexivity.
Qed.

(** A live sheet without a '動画リンク' column: the base link is the empty
    string, and a song with an offset gets the link "?t=" and the offset. *)
Theorem link_without_video_column (selected_live_row : Series) (starttime : cell) (t : Z) :
  has_label col_video_link (index selected_live_row) = false ->
  py_int starttime = inl t ->
  youtube_link (get selected_live_row col_video_link (Str [])) starttime
  = inl (Str (lit "?t=" ++ str_of_int t)).
Proof.
  intros Hno Ht. unfold get. rewrite Hno.
  rewrite (youtube_link_parsed (Str []) starttime t eq_refl Ht). reflexivity.
Qed.

End SongLines.

(* ================================================================== *)
(** * VSOP-LIVEVIEW/streamlit_app.py: the early exits and the join *)
(* ================================================================== *)

Lemma cell_eqb_present (a b : cell) :
  cell_eqb a b = true -> notna a = true /\ notna b = true.
Proof.
  destruct a, b; simpl; try discriminate; try (destruct negative); simpl;
    try discriminate; auto.
Qed.

Lemma lstrip_fixed (s : str) :
  (forall c r, s = c :: r -> isspace c = false) -> lstrip s = s.
Proof.
  destruct s as [|c s]; simpl; [reflexivity|].
  intros Hh. now rewrite (Hh c s eq_refl).
Qed.

Lemma strip_fixed (l : str) : trimmed l -> strip l = l.
Proof.
  intros [Hhead Hlast]. unfold strip, rstrip.
  rewrite (lstrip_fixed l Hhead). rewrite lstrip_fixed; [apply rev_involutive|].
  intros c r E. apply (Hlast c (rev r)).
  rewrite <- (rev_involutive l), E. reflexivity.
Qed.

Section EarlyExits.

Import LiveView.
Context `{Builtins}.

Local Open Scope script_scope.

(** Without '日付' or 'ライブ名' in the lives, the page stops in the sidebar
    with the error about these columns, whatever the songs are: the join
    key is not even looked at. *)
Theorem missing_live_columns_halt (df_lives df_songs : DataFrame) (choice : nat) :
  has_label col_date (columns df_lives) = false
  \/ has_label col_live_name (columns df_lives) = false ->
  render df_lives df_songs choice
  = ([Title; SidebarHeader; StError MissingLiveColumns], inr Stopped).
Proof.
  intros Hmiss. apply andb_false_iff in Hmiss.
  unfold render, select_live. rewrite Hmiss. reflexivity.
Qed.

(** A lives sheet with its columns and no row: nothing can be selected,
    and the run ends with [IndexError] in the sidebar. *)
Theorem empty_lives_raise_index_error (df_lives df_songs : DataFrame) (choice : nat) :
  has_label col_date (columns df_lives) = true ->
  has_label col_live_name (columns df_lives) = true ->
  rows df_lives = [] ->
  render df_lives df_songs choice
  = ([Title; SidebarHeader; Selectbox], inr (Raised IndexError)).
Proof.
  intros H1 H2 Hrows. unfold render, select_live, iloc.
  rewrite H1, H2, Hrows. destruct choice; reflexivity.
Qed.

(** With the key in both sheets, the join keeps the song rows whose
    'ライブID' equals that of the selected live, and the columns as they
    are.  A missing ID equals nothing: a song without ID belongs to no
    live, and a live without ID has no songs. *)
Theorem join_keeps_rows_with_equal_id (df_lives df_songs : DataFrame)
    (selected_live_row : Series) :
  has_label col_live_id (columns df_lives) = true ->
  has_label col_live_id (columns df_songs) = true ->
  let live_id := item selected_live_row col_live_id in
  exists out,
    join df_lives df_songs selected_live_row = ret out
    /\ columns out = columns df_songs
    /\ (forall r, In r (rows out)
                  <-> In r (rows df_songs)
                      /\ cell_eqb (at_label (columns df_songs) r col_live_id) live_id = true)
    /\ (forall r, In r (rows out) ->
                  notna (at_label (columns df_songs) r col_live_id) = true)
    /\ (live_id = NaN -> rows out = []).
Proof.
  intros H1 H2 live_id. eexists. split; [now apply join_found|].
  simpl. fold live_id. split; [reflexivity|]. split; [|split].
  - intros r. apply filter_In.
  - intros r Hin. apply filter_In in Hin. destruct Hin as [_ E].
    now apply cell_eqb_present in E.
  - intros Hnan. rewrite Hnan.
    induction (rows df_songs) as [|r rs IH]; simpl; [reflexivity|].
    destruct (cell_eqb (at_label (columns df_songs) r col_live_id) NaN) eqn:E;
      [|exact IH].
    apply cell_eqb_present in E. destruct E as [_ E]. discriminate.
Qed.

(** Without a '曲順' column in the songs, the page warns and goes on with
    the songs of the live in the order they were read. *)
Theorem songs_keep_read_order_without_order_column (df_lives df_songs : DataFrame)
    (selected_live_row : Series) :
  has_label col_live_id (columns df_lives) = true ->
  has_label col_live_id (columns df_songs) = true ->
  has_label col_order (columns df_songs) = false ->
  joined_songs df_lives df_songs selected_live_row
  = ([StWarning MissingOrder],
     inl {| columns := columns df_songs;
            rows := songs_of df_songs (item selected_live_row col_live_id) |}).
Proof.
  intros H1 H2 H3. unfold joined_songs.
  rewrite (join_found _ _ _ H1 H2), bind_ret.
  unfold order_songs. simpl. rewrite H3. reflexivity.
Qed.

(** Column names without whitespace at their ends come out of [load_data]
    as they went in, and loading a second time changes nothing more. *)
Theorem clean_headers_are_kept (raw_lives raw_songs : DataFrame) :
  ((forall l, In l (columns raw_lives ++ columns raw_songs) -> trimmed l) ->
   load_data (Some (raw_lives, raw_songs)) = ret (Some (raw_lives, raw_songs)))
  /\ load_data (Some (strip_columns raw_lives, strip_columns raw_songs))
     = load_data (Some (raw_lives, raw_songs)).
Proof.
  assert (Hfix : forall df, (forall l, In l (columns df) -> trimmed l) ->
                            strip_columns df = df).
  { intros [cols rs] Hall. unfold strip_columns. simpl in *. f_equal.
    rewrite <- (map_id cols) at 2. apply map_ext_in.
    intros l Hl. apply strip_fixed. now apply Hall. }
  split.
  - intros Hall. unfold load_data.
    rewrite (Hfix raw_lives) by (intros l Hl; apply Hall, in_or_app; auto).
    rewrite (Hfix raw_songs) by (intros l Hl; apply Hall, in_or_app; auto).
    reflexivity.
  - assert (Hs : forall df l, In l (columns (strip_columns df)) -> trimmed l).
    { simpl. intros df l Hl. apply in_map_iff in Hl.
      destruct Hl as [h [<- _]]. apply strip_trimmed. }
    unfold load_data.
    rewrite (Hfix (strip_columns raw_lives)) by apply Hs.
    rewrite (Hfix (strip_columns raw_songs)) by apply Hs.
    reflexivity.
Qed.

End EarlyExits.

Lemma one_line_per_song_witness :
  @LiveView.show_songs Examples.stable_builtins Examples.first_live
    (Examples.songs [Examples.song 1 1 "A" (Int 5); Examples.song 1 2 "B" NaN])
  = ([LiveView.StWrite (lit "A V https://x.com/watch?v=1&t=5");
      LiveView.StWrite (lit "B V")], inl tt).
Proof.
  exact (@one_line_per_song Examples.stable_builtins Examples.first_live
           (Examples.songs [Examples.song 1 1 "A" (Int 5); Examples.song 1 2 "B" NaN])
           eq_refl eq_refl eq_refl eq_refl).
Defined.

Lemma infinite_offset_cuts_the_page_witness :
  @LiveView.show_songs Examples.stable_builtins Examples.first_live
    (Examples.songs [Examples.song 1 1 "A" (Int 5); Examples.song 1 2 "B" (Inf false);
                     Examples.song 1 3 "C" (Int 9)])
  = ([LiveView.StWrite (lit "A V https://x.com/watch?v=1&t=5")],
     inr (Raised OverflowError)).
Proof.
  exact (@infinite_offset_cuts_the_page Examples.stable_builtins Examples.first_live
           (Examples.songs [Examples.song 1 1 "A" (Int 5);
                            Examples.song 1 2 "B" (Inf false);
                            Examples.song 1 3 "C" (Int 9)])
           [Examples.song 1 1 "A" (Int 5)] [Examples.song 1 3 "C" (Int 9)]
           (Examples.song 1 2 "B" (Inf false))
           eq_refl eq_refl eq_refl eq_refl eq_refl eq_refl eq_refl).
Defined.

Lemma missing_song_columns_are_named_witness :
  @LiveView.show_songs Examples.stable_builtins Examples.first_live
    {| columns := [LiveView.col_live_id; LiveView.col_vocal];
       rows := [[Int 1; Str (lit "V")]] |}
  = ([LiveView.StError
        (LiveView.MissingSongColumns [LiveView.col_song_name; LiveView.col_starttime])],
     inl tt).
Proof.
  refine (proj1 (@missing_song_columns_are_named Examples.stable_builtins
                   Examples.first_live
                   {| columns := [LiveView.col_live_id; LiveView.col_vocal];
                      rows := [[Int 1; Str (lit "V")]] |} _)).
  discriminate.
Defined.

Lemma link_without_video_column_witness :
  @LiveView.youtube_link Examples.stable_builtins
    (get {| index := [LiveView.col_date; LiveView.col_live_id];
            values := [Str (lit "2024-05-01"); Int 1] |}
         LiveView.col_video_link (Str []))
    (Float (905 # 10))
  = inl (Str (lit "?t=90")).
Proof.
  exact (@link_without_video_column Examples.stable_builtins
           {| index := [LiveView.col_date; LiveView.col_live_id];
              values := [Str (lit "2024-05-01"); Int 1] |}
           (Float (905 # 10)) 90 eq_refl eq_refl).
Defined.

Lemma missing_live_columns_halt_witness :
  @LiveView.render Examples.stable_builtins
    {| columns := [LiveView.col_date; LiveView.col_video_link];
       rows := [[Str (lit "2024-05-01"); Str Examples.url]] |}
    {| columns := [LiveView.col_song_name]; rows := [] |} 0
  = ([LiveView.Title; LiveView.SidebarHeader;
      LiveView.StError LiveView.MissingLiveColumns], inr Stopped).
Proof.
  exact (@missing_live_columns_halt Examples.stable_builtins
           {| columns := [LiveView.col_date; LiveView.col_video_link];
              rows := [[Str (lit "2024-05-01"); Str Examples.url]] |}
           {| columns := [LiveView.col_song_name]; rows := [] |} 0%nat
           (or_intror eq_refl)).
Defined.

Lemma empty_lives_raise_index_error_witness :
  @LiveView.render Examples.stable_builtins
    {| columns := columns Examples.one_live; rows := [] |}
    (Examples.songs [Examples.song 1 1 "A" (Int 5)]) 0
  = ([LiveView.Title; LiveView.SidebarHeader; LiveView.Selectbox],
     inr (Raised IndexError)).
Proof.
  exact (@empty_lives_raise_index_error Examples.stable_builtins
           {| columns := columns Examples.one_live; rows := [] |}
           (Examples.songs [Examples.song 1 1 "A" (Int 5)]) 0%nat
           eq_refl eq_refl eq_refl).
Defined.

Lemma join_keeps_rows_with_equal_id_witness :
  exists out,
    LiveView.join Examples.one_live
      (Examples.songs [Examples.song 1 1 "A" (Int 5); Examples.song 2 1 "C" (Int 7)])
      Examples.first_live = ret out
    /\ forall r, In r (rows out) -> In r [Examples.song 1 1 "A" (Int 5);
                                         Examples.song 2 1 "C" (Int 7)].
Proof.
  destruct (join_keeps_rows_with_equal_id Examples.one_live
              (Examples.songs [Examples.song 1 1 "A" (Int 5);
                               Examples.song 2 1 "C" (Int 7)])
              Examples.first_live eq_refl eq_refl)
    as [out [Hrun [_ [Hrows _]]]].
  exists out. split; [exact Hrun|]. intros r Hr. now apply Hrows in Hr.
Defined.

Lemma songs_keep_read_order_without_order_column_witness :
  @LiveView.joined_songs Examples.stable_builtins Examples.one_live
    {| columns := [LiveView.col_live_id; LiveView.col_song_name];
       rows := [[Int 1; Str (lit "B")]; [Int 2; Str (lit "C")]; [Int 1; Str (lit "A")]] |}
    Examples.first_live
  = ([LiveView.StWarning LiveView.MissingOrder],
     inl {| columns := [LiveView.col_live_id; LiveView.col_song_name];
            rows := [[Int 1; Str (lit "B")]; [Int 1; Str (lit "A")]] |}).
Proof.
  exact (@songs_keep_read_order_without_order_column Examples.stable_builtins
           Examples.one_live
           {| columns := [LiveView.col_live_id; LiveView.col_song_name];
              rows := [[Int 1; Str (lit "B")]; [Int 2; Str (lit "C")];
                       [Int 1; Str (lit "A")]] |}
           Examples.first_live eq_refl eq_refl eq_refl).
Defined.

(* ================================================================== *)
(** * weather_dashboard.py: the page and the statistics *)
(* ================================================================== *)

Lemma series_max_perm (xs ys : list WeatherDashboard.reading) :
  Permutation xs ys ->
  WeatherDashboard.same_reading (WeatherDashboard.series_max xs)
                                (WeatherDashboard.series_max ys).
Proof.
  intros Hp. pose proof (series_max_spec xs) as Hx. pose proof (series_max_spec ys) as Hy.
  unfold WeatherDashboard.same_reading.
  destruct (WeatherDashboard.series_max xs) as [a|],
           (WeatherDashboard.series_max ys) as [b|].
  - destruct Hx as [Ha Hxa], Hy as [Hb Hyb]. apply Qle_antisym.
    + apply Hyb. now apply (Permutation_in _ Hp).
    + apply Hxa. now apply (Permutation_in _ (Permutation_sym Hp)).
  - destruct Hx as [Ha _]. rewrite Forall_forall in Hy.
    apply (Permutation_in _ Hp) in Ha. now apply Hy in Ha.
  - destruct Hy as [Hb _]. rewrite Forall_forall in Hx.
    apply (Permutation_in _ (Permutation_sym Hp)) in Hb. now apply Hx in Hb.
  - exact I.
Qed.

Lemma series_min_perm (xs ys : list WeatherDashboard.reading) :
  Permutation xs ys ->
  WeatherDashboard.same_reading (WeatherDashboard.series_min xs)
                                (WeatherDashboard.series_min ys).
Proof.
  intros Hp. pose proof (series_min_spec xs) as Hx. pose proof (series_min_spec ys) as Hy.
  unfold WeatherDashboard.same_reading.
  destruct (WeatherDashboard.series_min xs) as [a|],
           (WeatherDashboard.series_min ys) as [b|].
  - destruct Hx as [Ha Hxa], Hy as [Hb Hyb]. apply Qle_antisym.
    + apply Hxa. now apply (Permutation_in _ (Permutation_sym Hp)).
    + apply Hyb. now apply (Permutation_in _ Hp).
  - destruct Hx as [Ha _]. rewrite Forall_forall in Hy.
    apply (Permutation_in _ Hp) in Ha. now apply Hy in Ha.
  - destruct Hy as [Hb _]. rewrite Forall_forall in Hx.
    apply (Permutation_in _ (Permutation_sym Hp)) in Hb. now apply Hx in Hb.
  - exact I.
Qed.

Section Statistics.

Import WeatherDashboard.

(** A statistic is missing exactly when every reading of its column is
    missing, which includes the frame without rows. *)
Theorem statistic_missing_iff_all_missing (df_daily : list daily_row) :
  (max_t (summarize df_daily) = None
   <-> forall r, In r df_daily -> temperature_2m_max r = None)
  /\ (min_t (summarize df_daily) = None
      <-> forall r, In r df_daily -> temperature_2m_min r = None)
  /\ (max_w (summarize df_daily) = None
      <-> forall r, In r df_daily -> windspeed_10m_max r = None).
Proof.
  assert (Hmap : forall (f : daily_row -> reading),
            Forall (fun x => x = None) (List.map f df_daily)
            <-> forall r, In r df_daily -> f r = None).
  { intros f. rewrite Forall_forall. split.
    - intros Hall r Hr. apply Hall. now apply in_map.
    - intros Hall x Hx. apply in_map_iff in Hx. destruct Hx as [r [<- Hr]]. now apply Hall. }
  simpl. rewrite !series_max_none_iff, series_min_none_iff, !Hmap. tauto.
Qed.

(** When every day carries a minimum and a maximum temperature with the
    minimum not above the maximum, and there is at least one day, both
    temperature statistics are present and the minimum shown is not above
    the maximum shown. *)
Theorem summary_min_not_above_max (df_daily : list daily_row) :
  df_daily <> [] ->
  (forall r, In r df_daily ->
     exists lo hi, temperature_2m_min r = Some lo /\ temperature_2m_max r = Some hi
                   /\ (lo <= hi)%Q) ->
  exists lo hi, min_t (summarize df_daily) = Some lo
                /\ max_t (summarize df_daily) = Some hi /\ (lo <= hi)%Q.
Proof.
  intros Hne Hrows. simpl.
  pose proof (series_min_spec (List.map temperature_2m_min df_daily)) as Hmin.
  pose proof (series_max_spec (List.map temperature_2m_max df_daily)) as Hmax.
  destruct df_daily as [|r0 rest]; [contradiction|].
  destruct (Hrows r0 (or_introl eq_refl)) as [lo0 [hi0 [El0 [Eh0 _]]]].
  destruct (series_min _) as [lo|].
  2:{ inversion Hmin as [|? ? E _]. simpl in E. congruence. }
  destruct (series_max _) as [hi|].
  2:{ inversion Hmax as [|? ? E _]. simpl in E. congruence. }
  exists lo, hi. split; [reflexivity|]. split; [reflexivity|].
  destruct Hmin as [Hin _], Hmax as [_ Hle].
  apply in_map_iff in Hin. destruct Hin as [r [Er Hr]].
  destruct (Hrows r Hr) as [lo1 [hi1 [El [Eh Hlh]]]].
  assert (lo1 = lo) by congruence. subst lo1.
  apply Qle_trans with hi1; [assumption|].
  apply Hle. apply in_map_iff. exists r. split; assumption.
Qed.

(** The statistics do not depend on the order of the days. *)
Theorem summary_ignores_row_order (df_daily df_daily' : list daily_row) :
  Permutation df_daily df_daily' ->
  same_reading (max_t (summarize df_daily)) (max_t (summarize df_daily'))
  /\ same_reading (min_t (summarize df_daily)) (min_t (summarize df_daily'))
  /\ same_reading (max_w (summarize df_daily)) (max_w (summarize df_daily')).
Proof.
  intros Hp. simpl. repeat split;
    [apply series_max_perm | apply series_min_perm | apply series_max_perm];
    now apply Permutation_map.
Qed.

(** More days can only raise the maxima and lower the minimum. *)
Theorem summary_widens_with_more_days (df_daily more : list daily_row) :
  (forall m, max_t (summarize df_daily) = Some m ->
     exists m', max_t (summarize (df_daily ++ more)) = Some m' /\ (m <= m')%Q)
  /\ (forall m, min_t (summarize df_daily) = Some m ->
     exists m', min_t (summarize (df_daily ++ more)) = Some m' /\ (m' <= m)%Q)
  /\ (forall m, max_w (summarize df_daily) = Some m ->
     exists m', max_w (summarize (df_daily ++ more)) = Some m' /\ (m <= m')%Q).
Proof.
  assert (Hmax : forall xs ys m, series_max xs = Some m ->
            exists m', series_max (xs ++ ys) = Some m' /\ (m <= m')%Q).
  { intros xs ys m E. pose proof (series_max_spec xs) as Hx. rewrite E in Hx.
    destruct Hx as [Hin _].
    pose proof (series_max_spec (xs ++ ys)) as Hxy.
    destruct (series_max (xs ++ ys)) as [m'|].
    - exists m'. split; [reflexivity|]. apply Hxy. apply in_or_app. now left.
    - rewrite Forall_forall in Hxy. exfalso.
      assert (Some m = None) by (apply Hxy, in_or_app; now left). discriminate. }
  assert (Hmin : forall xs ys m, series_min xs = Some m ->
            exists m', series_min (xs ++ ys) = Some m' /\ (m' <= m)%Q).
  { intros xs ys m E. pose proof (series_min_spec xs) as Hx. rewrite E in Hx.
    destruct Hx as [Hin _].
    pose proof (series_min_spec (xs ++ ys)) as Hxy.
    destruct (series_min (xs ++ ys)) as [m'|].
    - exists m'. split; [reflexivity|]. apply Hxy. apply in_or_app. now left.
    - rewrite Forall_forall in Hxy. exfalso.
      assert (Some m = None) by (apply Hxy, in_or_app; now left). discriminate. }
  simpl. rewrite !map_app. repeat split; intros m E;
    [apply Hmax | apply Hmin | apply Hmax]; exact E.
Qed.

End Statistics.

Section WeatherPage.

Import WeatherDashboard.
Variable geodesic_kilometers : Q * Q -> Q * Q -> Q + exn.

Local Open Scope script_scope.

(** The summary is shown only when the window is a pair of dates at most
    14 days apart, both cities were found, the distance could be computed
    and a forecast was fetched. *)
Theorem summary_shown_only_for_good_inputs (date_range : list date)
    (from_coord to_coord : option Location) (weather_daily : option (list daily_row)) :
  filter is_metric
    (shown (app geodesic_kilometers date_range from_coord to_coord weather_daily)) <> []
  -> exists start_date end_date f t distance df_daily,
       date_range = [start_date; end_date] /\ end_date - start_date <= 14
       /\ from_coord = Some f /\ to_coord = Some t
       /\ geodesic_kilometers (lat f, lon f) (lat t, lon t) = inl distance
       /\ weather_daily = Some df_daily.
Proof.
  unfold app, validate, calculate_distance.
  destruct date_range as [|s [|e [|x rest]]]; try (intros Hm; now contradiction Hm).
  destruct (Z.gtb_spec (e - s) 14) as [Hgt|Hle]; [intros Hm; now contradiction Hm|].
  rewrite bind_ret.
  destruct from_coord as [f|]; [|intros Hm; now contradiction Hm].
  destruct to_coord as [t|]; [|intros Hm; now contradiction Hm].
  destruct (geodesic_kilometers (lat f, lon f) (lat t, lon t)) as [d|ex] eqn:Ed;
    [|intros Hm; now contradiction Hm].
  destruct weather_daily as [w|]; [|intros Hm; now contradiction Hm].
  intros _. exists s, e, f, t, d, w. repeat split; assumption.
Qed.

(** After the window has passed the check, the page gives up in this
    order: a city that was not found stops it, with the city error shown;
    an exception of the distance computation ends the run, uncaught; a
    forecast that could not be fetched stops it, with the weather error
    shown.  In none of these cases is any part of the page body shown. *)
Theorem weather_page_early_exits (start_date end_date : date)
    (from_coord to_coord : option Location) (weather_daily : option (list daily_row)) :
  end_date - start_date <= 14 ->
  let run := app geodesic_kilometers [start_date; end_date]
                 from_coord to_coord weather_daily in
  (from_coord = None \/ to_coord = None ->
   ending run = Some Stopped
   /\ In (StError CityNotFound) (shown run)
   /\ filter is_body (shown run) = [])
  /\ (forall f t ex,
        from_coord = Some f -> to_coord = Some t ->
        geodesic_kilometers (lat f, lon f) (lat t, lon t) = inr ex ->
        ending run = Some (Raised ex)
        /\ filter is_body (shown run) = [])
  /\ (forall f t distance,
        from_coord = Some f -> to_coord = Some t ->
        geodesic_kilometers (lat f, lon f) (lat t, lon t) = inl distance ->
        weather_daily = None ->
        ending run = Some Stopped
        /\ In (StError WeatherUnavailable) (shown run)
        /\ filter is_body (shown run) = []).
Proof.
  intros Hle run. subst run. unfold app, validate, calculate_distance.
  destruct (Z.gtb_spec (end_date - start_date) 14) as [Hgt|_]; [lia|].
  rewrite bind_ret. split; [|split].
  - intros Hnone.
    assert (E : match from_coord, to_coord with
                | Some _, Some _ => False
                | _, _ => True
                end).
    { destruct Hnone as [-> | ->]; [exact I | destruct from_coord; exact I]. }
    destruct from_coord, to_coord; try contradiction; simpl; tauto.
  - intros f t ex -> -> Hd. rewrite Hd. simpl. tauto.
  - intros f t d -> -> Hd ->. rewrite Hd. simpl. tauto.
Qed.

(** A date input that is not a pair of dates (the user has picked only
    the start so far) stops the page with a warning, before any city or
    forecast is looked at. *)
Theorem incomplete_range_stops (date_range : list date)
    (from_coord to_coord : option Location) (weather_daily : option (list daily_row)) :
  List.length date_range <> 2%nat ->
  app geodesic_kilometers date_range from_coord to_coord weather_daily
  = ([StWarning RangeIncomplete], inr Stopped).
Proof.
  intros Hlen. unfold app, validate.
  destruct date_range as [|s [|e [|x rest]]]; try reflexivity.
  now contradiction Hlen.
Qed.

End WeatherPage.

Lemma summary_shown_only_for_good_inputs_witness :
  exists start_date end_date f t distance df_daily,
    [1; 8] = [start_date; end_date] /\ end_date - start_date <= 14
    /\ Some Examples.tokyo = Some f /\ Some Examples.osaka = Some t
    /\ Examples.about_400_km (WeatherDashboard.lat f, WeatherDashboard.lon f)
                             (WeatherDashboard.lat t, WeatherDashboard.lon t)
       = inl distance
    /\ Some Examples.two_days = Some df_daily.
Proof.
  refine (summary_shown_only_for_good_inputs Examples.about_400_km [1; 8]
            (Some Examples.tokyo) (Some Examples.osaka) (Some Examples.two_days) _).
  vm_compute. discriminate.
Defined.

Lemma summary_min_not_above_max_witness :
  exists lo hi,
    WeatherDashboard.min_t (WeatherDashboard.summarize Examples.two_days) = Some lo
    /\ WeatherDashboard.max_t (WeatherDashboard.summarize Examples.two_days) = Some hi
    /\ (lo <= hi)%Q.
Proof.
  refine (summary_min_not_above_max Examples.two_days _ _).
  - discriminate.
  - intros r [<-|[<-|[]]]; eexists; eexists;
      (split; [reflexivity|]; split; [reflexivity|]); discriminate.
Defined.

Lemma summary_ignores_row_order_witness :
  WeatherDashboard.same_reading
    (WeatherDashboard.max_t (WeatherDashboard.summarize Examples.two_days))
    (WeatherDashboard.max_t (WeatherDashboard.summarize (rev Examples.two_days))).
Proof.
  exact (proj1 (summary_ignores_row_order Examples.two_days (rev Examples.two_days)
                  (Permutation_rev Examples.two_days))).
Defined.

Lemma weather_page_early_exits_witness :
  ending (WeatherDashboard.app Examples.about_400_km [1; 8]
            (Some Examples.tokyo) None (Some Examples.two_days)) = Some Stopped
  /\ In (WeatherDashboard.StError WeatherDashboard.CityNotFound)
        (shown (WeatherDashboard.app Examples.about_400_km [1; 8]
                  (Some Examples.tokyo) None (Some Examples.two_days)))
  /\ filter WeatherDashboard.is_body
       (shown (WeatherDashboard.app Examples.about_400_km [1; 8]
                 (Some Examples.tokyo) None (Some Examples.two_days))) = [].
Proof.
  refine (proj1 (weather_page_early_exits Examples.about_400_km 1 8
                   (Some Examples.tokyo) None (Some Examples.two_days) _)
                (or_intror eq_refl)).
  lia.
Defined.

Lemma incomplete_range_stops_witness :
  WeatherDashboard.app Examples.about_400_km [1]
    (Some Examples.tokyo) (Some Examples.osaka) (Some Examples.two_days)
  = ([WeatherDashboard.StWarning WeatherDashboard.RangeIncomplete], inr Stopped).
Proof.
  refine (incomplete_range_stops Examples.about_400_km [1]
            (Some Examples.tokyo) (Some Examples.osaka) (Some Examples.two_days) _).
  simpl. lia.
Defined.

(* ================================================================== *)
(** * weather_dashboard.py: the fetch helpers, properties *)
(* ================================================================== *)

Section FetchFacts.

Import WeatherFetch.

Local Open Scope script_scope.

Lemma first_result_found (data : json) (c : coordinates) :
  first_result data = Some (Some c)
  <-> exists fields result others,
        data = JObj fields
        /\ lookup (lit "results") fields = Some (JArr (JObj result :: others))
        /\ lookup (lit "name") result = Some (name c)
        /\ lookup (lit "latitude") result = Some (lat c)
        /\ lookup (lit "longitude") result = Some (lon c)
        /\ country c = match lookup (lit "country") result with
                       | Some v => v
                       | None => JStr []
                       end.
Proof.
  split.
  - unfold first_result. destruct data as [| | | | | |fields]; try discriminate.
    destruct (lookup (lit "results") fields) as [results|] eqn:Er; [|discriminate].
    destruct (truthy results); [|discriminate].
    destruct results as [| | | | |[|[| | | | | |result] others]|]; try discriminate.
    destruct (lookup (lit "name") result) as [n|] eqn:En; [|discriminate].
    destruct (lookup (lit "latitude") result) as [la|] eqn:Ela; [|discriminate].
    destruct (lookup (lit "longitude") result) as [lo|] eqn:Elo; [|discriminate].
    intros E. injection E as <-. exists fields, result, others. simpl.
    repeat split; assumption.
  - intros (fields & result & others & -> & Er & En & Ela & Elo & Ec).
    unfold first_result. rewrite Er. simpl truthy. cbv iota. rewrite En, Ela, Elo.
    destruct c as [n la lo co]. simpl in *. now subst co.
Qed.

(** [get_coordinates] returns a place exactly for a reply 200 whose JSON
    body is an object with a non-empty list under "results" that starts
    with an object holding "name", "latitude" and "longitude": the place
    is read off that first result, later results are not looked at, and a
    missing "country" becomes the empty string. *)
Theorem coordinates_come_from_first_result (r : response) (c : coordinates) :
  get_coordinates r = ret (Some c)
  <-> exists fields result others,
        r = Reply 200 (Some (JObj fields))
        /\ lookup (lit "results") fields = Some (JArr (JObj result :: others))
        /\ lookup (lit "name") result = Some (name c)
        /\ lookup (lit "latitude") result = Some (lat c)
        /\ lookup (lit "longitude") result = Some (lon c)
        /\ country c = match lookup (lit "country") result with
                       | Some v => v
                       | None => JStr []
                       end.
Proof.
  split.
  - unfold get_coordinates. destruct r as [|status body]; [discriminate|].
    destruct (Z.eqb_spec status 200) as [->|_]; [|discriminate].
    destruct body as [data|]; [|discriminate].
    destruct (first_result data) as [answer|] eqn:E; [|discriminate].
    intros Hret. injection Hret as ->.
    apply first_result_found in E.
    destruct E as (fields & result & others & -> & Hrest).
    now exists fields, result, others.
  - intros (fields & result & others & -> & Hrest).
    assert (E : first_result (JObj fields) = Some (Some c)).
    { apply first_result_found. now exists fields, result, others. }
    unfold get_coordinates. simpl Z.eqb. cbv iota. now rewrite E.
Qed.

(** [get_coordinates] never ends the run.  It shows its error only when
    it returns nothing, and a reply other than 200 gives nothing without
    any message, so the caller cannot tell it from a city that does not
    exist. *)
Theorem geocoding_failures_return_nothing (r : response) :
  ending (get_coordinates r) = None
  /\ (shown (get_coordinates r) <> [] ->
      get_coordinates r = ([GeocodingError], inl None))
  /\ (forall status_code body,
        r = Reply status_code body -> status_code <> 200 ->
        get_coordinates r = ret None).
Proof.
  split; [|split].
  - unfold get_coordinates. destruct r as [|status body]; [reflexivity|].
    destruct (status =? 200); [|reflexivity].
    destruct body as [data|]; [|reflexivity].
    destruct (first_result data); reflexivity.
  - unfold get_coordinates. destruct r as [|status body]; [reflexivity|].
    destruct (status =? 200); [|intros Hs; now contradiction Hs].
    destruct body as [data|]; [|reflexivity].
    destruct (first_result data); [intros Hs; now contradiction Hs | reflexivity].
  - intros status body -> Hs. unfold get_coordinates.
    destruct (Z.eqb_spec status 200); [contradiction | reflexivity].
Qed.

(** [get_initial_city] answers the value under "city", whatever it is,
    for a reply 200 whose JSON body is an object with that key, and "東京"
    for every other reply. *)
Theorem initial_city_defaults_to_tokyo (r : response) :
  (forall fields city,
      r = Reply 200 (Some (JObj fields)) ->
      lookup (lit "city") fields = Some city ->
      get_initial_city r = city)
  /\ ((forall fields city,
         r = Reply 200 (Some (JObj fields)) ->
         lookup (lit "city") fields <> Some city) ->
      get_initial_city r = JStr tokyo_name).
Proof.
  split.
  - intros fields city -> E. unfold get_initial_city. simpl. now rewrite E.
  - unfold get_initial_city. destruct r as [|status body]; [reflexivity|].
    destruct (Z.eqb_spec status 200) as [->|_]; [|reflexivity].
    destruct body as [[| | | | | |fields]|]; try reflexivity.
    destruct (lookup (lit "city") fields) as [city|] eqn:E; [|reflexivity].
    intros Hno. now elim (Hno fields city eq_refl).
Qed.


End FetchFacts.

(** A null city is handed on as it is; a body that is a list gives the
    default. *)
Example initial_city_examples :
  WeatherFetch.get_initial_city
    (Reply 200 (Some (JObj [(lit "ip", JStr (lit "::1")); (lit "city", JNull)])))
  = JNull
  /\ WeatherFetch.get_initial_city (Reply 200 (Some (JArr [JStr (lit "Osaka")])))
     = JStr WeatherFetch.tokyo_name
  /\ WeatherFetch.get_initial_city (Reply 503 None) = JStr WeatherFetch.tokyo_name.
Proof. repeat split. Qed.

Example first_of_two_results_is_taken :
  WeatherFetch.get_coordinates (Reply 200 (Some Examples.geocoding_answer))
  = ret (Some {| WeatherFetch.name := JStr (lit "Osaka");
                 WeatherFetch.lat := JNum (346937 # 10000);
                 WeatherFetch.lon := JNum (1355023 # 10000);
                 WeatherFetch.country := JStr [] |}).
Proof. reflexivity. Qed.

(* ================================================================== *)
(** * app.py: the cards of the page *)
(* ================================================================== *)

Lemma shown_bind {E A B} (m : M E A) (k : A -> M E B) :
  shown (bind m k)
  = shown m ++ match snd m with inl a => shown (k a) | inr _ => [] end.
Proof.
  destruct m as [out [a|h]]; simpl.
  - destruct (k a); reflexivity.
  - now rewrite app_nil_r.
Qed.

Section NewsCards.

Import NewsApp.
Variable datetime : Type.
Variable strptime : str -> option datetime.
Variable strftime : datetime -> option str.

Local Open Scope script_scope.

Local Abbreviation format_date := (format_date datetime strptime strftime).
Local Abbreviation show_entry := (show_entry datetime strptime strftime).
Local Abbreviation card_of := (card_of datetime strptime strftime).
Local Abbreviation app := (app datetime strptime strftime).

Lemma show_entry_incomplete (e : entry) :
  complete e = false -> show_entry e = raise AttributeError.
Proof.
  unfold complete, NewsApp.show_entry, NewsApp.format_date.
  destruct (published e) as [p|].
  - destruct (match strptime p with Some dt => strftime dt | None => None end);
      destruct (title e), (summary e), (link e); try discriminate; reflexivity.
  - reflexivity.
Qed.

Lemma for_each_until_incomplete (before rest : list entry) (e : entry) :
  forallb complete before = true -> complete e = false ->
  for_each (before ++ e :: rest) show_entry
  = (List.map card_of before, inr (Raised AttributeError)).
Proof.
  intros Hb He. induction before as [|b before IH]; simpl.
  - now rewrite (show_entry_incomplete e He).
  - simpl in Hb. apply andb_true_iff in Hb. destruct Hb as [Hc Hrest].
    rewrite (show_entry_complete _ _ _ b Hc), bind_emit, (IH Hrest). reflexivity.
Qed.

Lemma for_each_shows_at_most (es : list entry) :
  (List.length (shown (for_each es show_entry)) <= List.length es)%nat.
Proof.
  induction es as [|e es IH]; simpl; [apply le_n|].
  destruct (complete e) eqn:Ec.
  - rewrite (show_entry_complete _ _ _ e Ec), bind_emit. simpl. now apply le_n_S.
  - rewrite (show_entry_incomplete e Ec). simpl. apply Nat.le_0_l.
Qed.

Lemma filter_cards (es : list entry) :
  filter is_card (List.map card_of es) = List.map card_of es.
Proof. induction es as [|e es IH]; simpl; [reflexivity | now rewrite IH]. Qed.

Lemma filter_length_le {A} (f : A -> bool) (l : list A) :
  (List.length (filter f l) <= List.length l)%nat.
Proof.
  induction l as [|x l IH]; simpl; [apply le_n|].
  destruct (f x); simpl; [now apply le_n_S | now apply le_S].
Qed.

(** Whatever the query and the feed, the page never shows more than 15
    cards, nor more cards than the feed has entries. *)
Theorem at_most_15_cards (search_query : str) (entries : list entry) :
  (List.length (filter is_card (shown (app search_query entries)))
   <= Nat.min 15 (List.length entries))%nat.
Proof.
  unfold NewsApp.app.
  match goal with
  | |- context [bind ?m (fun _ => emit Footer)] => set (X := m)
  end.
  assert (HX : (List.length (filter is_card (shown X))
                <= Nat.min 15 (List.length entries))%nat).
  { subst X. destruct search_query as [|c q]; [apply Nat.le_0_l|].
    destruct entries as [|e es]; [apply Nat.le_0_l|].
    eapply Nat.le_trans; [apply filter_length_le|].
    eapply Nat.le_trans; [apply for_each_shows_at_most|].
    rewrite length_firstn. apply le_n. }
  rewrite shown_bind. simpl snd. cbv iota. rewrite shown_bind.
  change (shown (emit Header)) with [Header].
  rewrite !filter_app.
  assert (Hfooter : filter is_card match snd X with
                                   | inl _ => shown (emit Footer)
                                   | inr _ => []
                                   end = []).
  { destruct (snd X); reflexivity. }
  rewrite Hfooter, app_nil_r. exact HX.
Qed.

(** The entries after the fifteenth never matter: the page for a feed is
    the page for its first 15 entries. *)
Theorem entries_after_15_never_matter (search_query : str) (entries : list entry) :
  app search_query entries = app search_query (firstn 15 entries).
Proof.
  unfold NewsApp.app. destruct search_query as [|c q]; [reflexivity|].
  destruct entries as [|e es]; [reflexivity|].
  rewrite firstn_firstn. reflexivity.
Qed.

(** An entry that lacks a field ends the run with [AttributeError]: the
    cards of the entries before it are shown, and neither its own card,
    nor any later card, nor the footer. *)
Theorem incomplete_entry_aborts_page (search_query : str)
    (before rest : list entry) (e : entry) :
  search_query <> [] ->
  (List.length before < 15)%nat ->
  forallb complete before = true ->
  complete e = false ->
  app search_query (before ++ e :: rest)
  = (Header :: List.map card_of before, inr (Raised AttributeError)).
Proof.
  intros Hq Hlen Hb He. unfold NewsApp.app.
  destruct search_query as [|c q]; [contradiction|].
  assert (Hfirst : exists rest', firstn 15 (before ++ e :: rest) = before ++ e :: rest').
  { rewrite firstn_app. rewrite firstn_all2 by lia.
    destruct (15 - List.length before)%nat as [|k] eqn:Ek; [lia|].
    simpl. now exists (firstn k rest). }
  destruct Hfirst as [rest' Hfirst].
  destruct (before ++ e :: rest) as [|x xs] eqn:Eall.
  { destruct before; discriminate. }
  rewrite Hfirst, (for_each_until_incomplete before rest' e Hb He). reflexivity.
Qed.

(** Formatting the date of an entry fails only when the entry has no
    published field at all; with the field present the date shown is the
    printed date when parsing and printing both succeed, and the string as
    received otherwise. *)
Theorem date_with_published_never_fails (e : entry) :
  (forall ex, format_date e = inr ex <-> ex = AttributeError /\ published e = None)
  /\ (forall raw, published e = Some raw ->
        exists shown_date,
          format_date e = inl shown_date
          /\ match strptime raw with
             | Some dt => match strftime dt with
                          | Some printed => shown_date = printed
                          | None => shown_date = raw
                          end
             | None => shown_date = raw
             end).
Proof.
  unfold NewsApp.format_date. split.
  - intros ex. destruct (published e) as [raw|].
    + destruct (match strptime raw with Some dt => strftime dt | None => None end);
        split; try discriminate; intros [_ E]; discriminate.
    + split; [intros E; injection E as <-; now split | intros [-> _]; reflexivity].
  - intros raw ->. destruct (strptime raw) as [dt|]; [|now exists raw].
    destruct (strftime dt) as [printed|]; [now exists printed | now exists raw].
Qed.

(** For a query and a feed whose first 15 entries carry all their fields,
    the cards are those of the first 15 entries in the order of the feed,
    and the run reaches its end. *)
Theorem cards_follow_feed_order (search_query : str) (entries : list entry) :
  search_query <> [] -> entries <> [] ->
  forallb complete (firstn 15 entries) = true ->
  filter is_card (shown (app search_query entries))
    = List.map card_of (firstn 15 entries)
  /\ ending (app search_query entries) = None.
Proof.
  intros Hq He Hc. rewrite (app_shows_cards _ _ _ _ _ Hq He Hc). split; [|reflexivity].
  simpl. rewrite filter_app, filter_cards. simpl. apply app_nil_r.
Qed.

End NewsCards.

Lemma incomplete_entry_aborts_page_witness :
  NewsApp.app unit Examples.parse_one Examples.print_one (lit "AI")
    [Examples.news "yesterday";
     {| NewsApp.title := Some (lit "T"); NewsApp.published := Some (lit "today");
        NewsApp.summary := None; NewsApp.link := Some (lit "L") |};
     Examples.news "tomorrow"]
  = ([NewsApp.Header; NewsApp.Card (lit "T") (lit "yesterday") (lit "S") (lit "L")],
     inr (Raised AttributeError)).
Proof.
  refine (incomplete_entry_aborts_page unit Examples.parse_one Examples.print_one
            (lit "AI") [Examples.news "yesterday"] [Examples.news "tomorrow"]
            {| NewsApp.title := Some (lit "T"); NewsApp.published := Some (lit "today");
               NewsApp.summary := None; NewsApp.link := Some (lit "L") |}
            _ _ eq_refl eq_refl).
  - discriminate.
  - simpl. lia.
Defined.

Lemma cards_follow_feed_order_witness :
  filter NewsApp.is_card
    (shown (NewsApp.app unit Examples.parse_one Examples.print_one (lit "AI")
              [Examples.news "yesterday"; Examples.news "today"]))
  = [NewsApp.Card (lit "T") (lit "yesterday") (lit "S") (lit "L");
     NewsApp.Card (lit "T") (lit "today") (lit "S") (lit "L")].
Proof.
  refine (proj1 (cards_follow_feed_order unit Examples.parse_one Examples.print_one
                   (lit "AI") [Examples.news "yesterday"; Examples.news "today"]
                   _ _ eq_refl)); discriminate.
Defined.

(* ================================================================== *)
(** * VSOP-LIVEVIEW/streamlit_app.py: the whole page *)
(* ================================================================== *)

Lemma bind_value {E A B} (out : list E) (a : A) (k : A -> M E B) :
  bind (out, inl a) k = (out ++ fst (k a), snd (k a)).
Proof. unfold bind. destruct (k a); reflexivity. Qed.

Lemma forallb_perm {A} (f : A -> bool) (l l' : list A) :
  Permutation l l' -> forallb f l = true -> forallb f l' = true.
Proof.
  intros Hp. rewrite !forallb_forall. intros Hall x Hx.
  apply Hall. now apply (Permutation_in _ (Permutation_sym Hp)).
Qed.

Section WholePage.

Import LiveView.
Context `{Builtins}.

Local Open Scope script_scope.

(** The page for two sheets that carry all their columns: after the title,
    the sidebar and the subheader it shows one line for each song of the
    selected live and no other line, ascending by '曲順', and the run
    reaches its end.  This needs order values that can be compared and no
    infinite offset among the songs of the live when the live has a link,
    and it holds for every ordering step that keeps the promise of the
    default [sort_values]. *)
Theorem page_shows_each_song_of_the_live_once (df_lives df_songs : DataFrame)
    (choice : nat) (selected_live_row : Series) :
  sort_contract quicksort ->
  has_label col_date (columns df_lives) = true ->
  has_label col_live_name (columns df_lives) = true ->
  has_label col_live_id (columns df_lives) = true ->
  has_label col_live_id (columns df_songs) = true ->
  has_label col_order (columns df_songs) = true ->
  has_label col_song_name (columns df_songs) = true ->
  has_label col_vocal (columns df_songs) = true ->
  has_label col_starttime (columns df_songs) = true ->
  iloc df_lives choice = Some selected_live_row ->
  let selected := songs_of df_songs (item selected_live_row col_live_id) in
  let video_link_base := get selected_live_row col_video_link (Str []) in
  comparable (List.map (order_key df_songs) selected) = true ->
  forallb (fun r => negb (notna video_link_base
                          && infinite_offset (columns df_songs) r)) selected = true ->
  exists ordered,
    Permutation selected ordered
    /\ StronglySorted
         (fun r1 r2 => key_leb (order_key df_songs r1) (order_key df_songs r2) = true)
         ordered
    /\ render df_lives df_songs choice
       = ([Title; SidebarHeader; Selectbox; Subheader]
          ++ List.map (fun r => StWrite (song_line (columns df_songs) video_link_base r))
                      ordered,
          inl tt).
Proof.
  intros Hc Hd Hn Hl Hs Ho Hsn Hv Hst Hsel selected base Hcmp Hfin.
  set (ordered := List.map snd (quicksort (combine (List.map (order_key df_songs) selected)
                                                   selected))).
  destruct (sorted_rows quicksort (order_key df_songs) selected Hc Hcmp)
    as [Hperm Hsorted]. fold ordered in Hperm, Hsorted.
  exists ordered. split; [exact Hperm|]. split; [exact Hsorted|].
  assert (Esel : select_live df_lives choice
                 = ([SidebarHeader; Selectbox], inl selected_live_row)).
  { unfold select_live. rewrite Hd, Hn, Hsel. reflexivity. }
  assert (Eorder : order_songs (where_eq df_songs col_live_id
                                  (item selected_live_row col_live_id))
                   = ret {| columns := columns df_songs; rows := ordered |}).
  { unfold order_songs, sort_values, column. simpl. rewrite Ho.
    fold (songs_of df_songs (item selected_live_row col_live_id)).
    fold selected. fold (order_key df_songs). rewrite Hcmp. reflexivity. }
  assert (Eshow : show_songs selected_live_row
                    {| columns := columns df_songs; rows := ordered |}
                  = (List.map (fun r => StWrite (song_line (columns df_songs) base r))
                              ordered, inl tt)).
  { unfold show_songs, iterrows. cbn [columns rows].
    rewrite (required_cols_present df_songs Hsn Hv Hst). apply show_rows_finite.
    exact (forallb_perm _ _ _ Hperm Hfin). }
  unfold render.
  rewrite bind_emit, Esel, !bind_value.
  rewrite (join_found _ _ _ Hl Hs), !bind_ret, !bind_emit, Eorder, !bind_ret, Eshow.
  reflexivity.
Qed.

End WholePage.

Lemma page_shows_each_song_of_the_live_once_witness :
  @LiveView.render Examples.stable_builtins Examples.one_live
    (Examples.songs [Examples.song 1 2 "B" (Int 90); Examples.song 2 1 "C" (Int 7);
                     Examples.song 1 1 "A" (Int 5)]) 0
  = ([LiveView.Title; LiveView.SidebarHeader; LiveView.Selectbox; LiveView.Subheader;
      LiveView.StWrite (lit "A V https://x.com/watch?v=1&t=5");
      LiveView.StWrite (lit "B V https://x.com/watch?v=1&t=90")], inl tt).
Proof.
  destruct (@page_shows_each_song_of_the_live_once Examples.stable_builtins
              Examples.one_live
              (Examples.songs [Examples.song 1 2 "B" (Int 90);
                               Examples.song 2 1 "C" (Int 7);
                               Examples.song 1 1 "A" (Int 5)])
              0%nat Examples.first_live insertion_sort_contract
              eq_refl eq_refl eq_refl eq_refl eq_refl eq_refl eq_refl eq_refl
              eq_refl eq_refl eq_refl)
    as [ordered [_ [_ Hrun]]].
  reflexivity.
Defined.
